(** * Trading journal: the trade listing and aggregation view

    A shallow embedding of [journal/views.py]: the listing view
    [trade_list] first, then the other views of the file, together with
    the fragment of the Django ORM and request API that they call.

    Numbers.  The model fields [entry_price], [quantity], [pnl] and
    [current_balance] are decimals; they are embedded as exact rationals
    [Q], compared with [==] the way Python compares decimals by value.
    [win_rate] is computed by Python's true division of two ints and a
    multiplication by 100, both in binary64; it is embedded in the Standard
    Library's specification of IEEE 754 ([spec_float] at precision 53), so
    what the model computes is the float the code computes, rounding
    included.

    Database.  The persisted state is one table per model, threaded through
    every view by a state-and-exception monad.  ORDER BY is a stable sort
    of the user's rows; strings are compared character by character, by
    character code (["CLOSED"] sorts before ["OPEN"]).

    Layout.  First the model, then the vocabulary the statements use, then
    lemmas on the parts, then the properties of the listing view, grouped
    by the figure they concern, then the properties of the other views. *)

From Stdlib Require Import ZArith QArith Qabs String Ascii List Bool Lia Lqa.
From Stdlib Require Import Permutation Sorted Floats Qpower.
From stdpp Require Import base option gmap.
Import ListNotations.

Local Open Scope string_scope.
Local Open Scope list_scope.

(** ** Data model (journal/models.py, as the view uses it) *)

Inductive Status := OPEN | CLOSED.

(** The value stored in the [status] column. *)
Definition status_value (s : Status) : string :=
  match s with
  | OPEN => "OPEN"
  | CLOSED => "CLOSED"
  end.

Record Trade := mkTrade {
  trade_id : nat;
  trade_user : nat;
  symbol : string;
  entry_date : Z;
  status : Status;
  entry_price : Q;
  quantity : Q;
  pnl : option Q
}.

Record Strategy := mkStrategy {
  strategy_id : nat;
  strategy_user : nat;
  strategy_name : string
}.

Record TradeImage := mkTradeImage {
  image_id : nat;
  image_trade : nat;
  image_file : string;
  caption : string;
  created_at : Z
}.

Record Portfolio := mkPortfolio {
  current_balance : Q
}.

(** The persisted state: one table per model; [Portfolio] is one-to-one
    with the user, hence a map keyed by the user's id. *)
Record Database := mkDatabase {
  trade_table : list Trade;
  strategy_table : list Strategy;
  image_table : list TradeImage;
  portfolio_table : gmap nat Portfolio
}.

(** ** Requests and responses *)

Inductive User := AnonymousUser | Authenticated (uid : nat).

(** [request.GET]: the query string as a sequence of pairs; a key may be
    repeated. *)
Definition QueryDict := list (string * string).

Record HttpRequest := mkRequest {
  user : User;
  method : string;
  GET : QueryDict
}.

(** [QueryDict.get(key, default)]: the last value given for [key], the
    default when the key is absent. *)
Fixpoint QueryDict_get (q : QueryDict) (key default : string) : string :=
  match q with
  | [] => default
  | (k, v) :: rest =>
      if String.eqb k key then QueryDict_get rest key v
      else QueryDict_get rest key default
  end.

(** ** The ORM fragment: ordering *)

Inductive Column := ColSymbol | ColStatus | ColEntryDate.
Inductive Direction := Asc | Desc.

(** Only the columns [trade_list] can name are resolved; every other name
    is treated as an unknown field. *)
Definition resolve_column (name : string) : option Column :=
  if String.eqb name "symbol" then Some ColSymbol
  else if String.eqb name "status" then Some ColStatus
  else if String.eqb name "entry_date" then Some ColEntryDate
  else None.

(** An [order_by] argument: a leading ["-"] asks for descending order. *)
Definition resolve_ordering (field : string) : option (Column * Direction) :=
  match field with
  | String "-" name => c ← resolve_column name; Some (c, Desc)
  | _ => c ← resolve_column field; Some (c, Asc)
  end.

Definition column_leb (c : Column) (a b : Trade) : bool :=
  match c with
  | ColSymbol => String.leb (symbol a) (symbol b)
  | ColStatus => String.leb (status_value (status a)) (status_value (status b))
  | ColEntryDate => Z.leb (entry_date a) (entry_date b)
  end.

Definition ordering_leb (o : Column * Direction) (a b : Trade) : bool :=
  match snd o with
  | Asc => column_leb (fst o) a b
  | Desc => column_leb (fst o) b a
  end.

(** The database's ORDER BY, as a stable insertion sort: rows that tie on
    the sort column keep their table order. *)
Section Sorting.
Context {A : Type} (leb : A → A → bool).

Fixpoint insert_row (x : A) (l : list A) : list A :=
  match l with
  | [] => [x]
  | y :: rest => if leb x y then x :: l else y :: insert_row x rest
  end.

Definition sort_rows (l : list A) : list A := foldr insert_row [] l.
End Sorting.

(** ** Exceptions and the view monad *)

Inductive Exception := FieldError | TypeError | Http404.

Inductive Result (A : Type) := Ok (a : A) | Raise (e : Exception).
Arguments Ok {A} a.
Arguments Raise {A} e.

#[global] Instance Result_ret : MRet Result := λ A a, Ok a.
#[global] Instance Result_bind : MBind Result := λ A B f m,
  match m with
  | Ok a => f a
  | Raise e => Raise e
  end.

(** A view runs against the database and may change it. *)
Definition View (A : Type) : Type := Database → Database * Result A.

#[global] Instance View_ret : MRet View := λ A a db, (db, Ok a).
#[global] Instance View_bind : MBind View := λ A B f m db,
  match m db with
  | (db', Ok a) => f a db'
  | (db', Raise e) => (db', Raise e)
  end.

Definition lift_result {A} (r : Result A) : View A := λ db, (db, r).
Definition read_db : View Database := λ db, (db, Ok db).
Definition write_db (db' : Database) : View unit := λ _, (db', Ok tt).

(** ** The ORM fragment: query sets *)

Record QuerySet := mkQuerySet {
  qs_user : User;
  qs_ordering : option string
}.

(** [Trade.objects.filter(user=u)] *)
Definition Trade_objects_filter (u : User) : QuerySet :=
  {| qs_user := u; qs_ordering := None |}.

(** [qs.order_by(field)] replaces any earlier ordering. *)
Definition order_by (field : string) (qs : QuerySet) : QuerySet :=
  {| qs_user := qs_user qs; qs_ordering := Some field |}.

Definition owned_by (uid : nat) (t : Trade) : bool := Nat.eqb (trade_user t) uid.

(** The rows a query set stands for in a given database. *)
Definition QuerySet_rows (qs : QuerySet) (db : Database) : Result (list Trade) :=
  match qs_user qs with
  | AnonymousUser => Raise TypeError
  | Authenticated uid =>
      let rows := List.filter (owned_by uid) (trade_table db) in
      match qs_ordering qs with
      | None => Ok rows
      | Some field =>
          match resolve_ordering field with
          | None => Raise FieldError
          | Some o => Ok (sort_rows (ordering_leb o) rows)
          end
      end
  end.

(** Iterating a query set runs the query once; the view then works on the
    cached rows. *)
Definition QuerySet_fetch (qs : QuerySet) : View (list Trade) :=
  db ← read_db; lift_result (QuerySet_rows qs db).

(** [request.user.portfolio] guarded by [hasattr]: the related row when
    there is one. *)
Definition user_portfolio (u : User) : View (option Portfolio) :=
  db ← read_db;
  mret (match u with
        | AnonymousUser => None
        | Authenticated uid => portfolio_table db !! uid
        end).

(** ** Python built-ins used by the view *)

(** [sum(xs)]: left to right, starting from 0. *)
Definition py_sum (xs : list Q) : Q := fold_left Qplus xs 0%Q.

(** Truth value of an optional decimal: [None] and zero are falsy. *)
Definition py_truthy (x : option Q) : bool :=
  match x with
  | None => false
  | Some p => negb (Qeq_bool p 0)
  end.

(** [a > b] on optional decimals; comparing with [None] raises. *)
Definition py_gt (a b : option Q) : Result bool :=
  match a, b with
  | Some x, Some y => Ok (negb (Qle_bool x y))
  | _, _ => Raise TypeError
  end.

Section PyMax.
Context {A : Type} (key : A → option Q).

(** The loop of [max]: the running maximum is replaced only by a strictly
    greater item. *)
Fixpoint max_loop (maxitem : A) (maxval : option Q) (rest : list A) : Result A :=
  match rest with
  | [] => Ok maxitem
  | item :: rest' =>
      let val := key item in
      gt ← py_gt val maxval;
      if (gt : bool) then max_loop item val rest'
      else max_loop maxitem maxval rest'
  end.

(** [max(xs, key=key, default=None)] *)
Definition py_max (xs : list A) : Result (option A) :=
  match xs with
  | [] => Ok None
  | item :: rest => m ← max_loop item (key item) rest; Ok (Some m)
  end.
End PyMax.

(** ** Python numbers: ints and binary64 floats *)

(** What [win_rate] can be: an int or a float.  Floats are IEEE 754
    binary64, in the Standard Library's specification [spec_float] with
    [prec = 53] and [emax = 1024], the format of the kernel's own floats. *)
Inductive Number :=
  | Int (n : Z)
  | Float (f : spec_float).

(** [float(n)] of an int: the nearest binary64 (exact below [2^53]). *)
Definition float_of_int (n : Z) : spec_float := binary_normalize prec emax n 0 false.

(** A length as an operand of [/]: the integer itself, mantissa [n] and
    exponent 0, not rounded. *)
Definition int_of_len (n : nat) : spec_float :=
  match n with
  | O => S754_zero false
  | S _ => S754_finite false (Pos.of_nat n) 0
  end.

(** [a / b] on two ints, with [b] not 0 (the view divides behind a guard):
    the exact quotient rounded once to the nearest binary64, ties to even. *)
Definition py_truediv (a b : nat) : spec_float :=
  SFdiv prec emax (int_of_len a) (int_of_len b).

(** [x * n] for a float [x] and an int [n]: [n] is converted to a float and
    the product is rounded. *)
Definition py_mul_int (x : spec_float) (n : Z) : spec_float :=
  SFmul prec emax x (float_of_int n).

(** ** The aggregates of [trade_list] *)

Definition is_closed (t : Trade) : bool := String.eqb (status_value (status t)) "CLOSED".
Definition has_pnl (t : Trade) : bool :=
  match pnl t with
  | Some _ => true
  | None => false
  end.

(** [trade.pnl for trade in trades if trade.pnl is not None] *)
Definition pnl_values (trades : list Trade) : list Q :=
  flat_map (λ t, match pnl t with Some p => [p] | None => [] end) trades.

Definition total_pnl (trades : list Trade) : Q := py_sum (pnl_values trades).

Definition total_investment (trades : list Trade) : Q :=
  py_sum (map (λ t, entry_price t * quantity t)%Q trades).

Definition closed_trades (trades : list Trade) : list Trade := List.filter is_closed trades.

(** [trade.pnl and trade.pnl > 0] *)
Definition is_winning (t : Trade) : bool :=
  if py_truthy (pnl t)
  then match pnl t with
       | Some p => negb (Qle_bool p 0)
       | None => false
       end
  else false.

Definition winning_trades (closed : list Trade) : list Trade := List.filter is_winning closed.

(** [(len(winning_trades) / len(closed_trades) * 100) if closed_trades else 0]:
    a float when there is a closed trade, the int [0] when there is none. *)
Definition win_rate (trades : list Trade) : Number :=
  let closed := closed_trades trades in
  let winning := winning_trades closed in
  match closed with
  | [] => Int 0
  | _ :: _ => Float (py_mul_int (py_truediv (length winning) (length closed)) 100)
  end.

Definition best_performer (trades : list Trade) : Result (option Trade) :=
  py_max pnl (List.filter has_pnl (closed_trades trades)).

Definition net_worth (portfolio : option Portfolio) : Q :=
  match portfolio with
  | Some p => current_balance p
  | None => 0
  end.

(** ** The views *)

Record TradeListContext := mkTradeListContext {
  ctx_trades : list Trade;
  ctx_current_sort : string;
  ctx_current_order : string;
  ctx_total_pnl : Q;
  ctx_net_worth : Q;
  ctx_win_rate : Number;
  ctx_best_performer : option Trade;
  ctx_total_investment : Q
}.

Inductive Context :=
  | TradeListCtx (c : TradeListContext)
  | TradeCtx (trade : Trade).

Inductive HttpResponse :=
  | Render (template : string) (context : Context)
  | Redirect (to : string)
  | RedirectToLogin.

(** [@login_required]: anonymous requests never reach the view. *)
Definition login_required (view : HttpRequest → View HttpResponse)
    (request : HttpRequest) : View HttpResponse :=
  match user request with
  | AnonymousUser => mret RedirectToLogin
  | Authenticated _ => view request
  end.

(** Lines 17-32 of [trade_list]: the sort field and its direction. *)
Definition apply_sort (sort_by order : string) (trades : QuerySet) : QuerySet :=
  let sort_field :=
    if String.eqb sort_by "symbol" then "symbol"
    else if String.eqb sort_by "status" then "status"
    else "-entry_date" in
  if existsb (String.eqb sort_by) ["symbol"; "status"] then
    if String.eqb order "asc" then order_by sort_field trades
    else order_by ("-" ++ sort_field) trades
  else order_by sort_field trades.

Definition trade_list : HttpRequest → View HttpResponse :=
  login_required (λ request,
    let trades := Trade_objects_filter (user request) in
    let sort_by := QueryDict_get (GET request) "sort_by" "entry_date" in
    let order := QueryDict_get (GET request) "order" "desc" in
    let trades := apply_sort sort_by order trades in
    rows ← QuerySet_fetch trades;
    let total_pnl := total_pnl rows in
    let total_investment := total_investment rows in
    let win_rate := win_rate rows in
    best_performer ← lift_result (best_performer rows);
    portfolio ← user_portfolio (user request);
    let net_worth := net_worth portfolio in
    mret (Render "journal/trade_list.html" (TradeListCtx {|
      ctx_trades := rows;
      ctx_current_sort := sort_by;
      ctx_current_order := order;
      ctx_total_pnl := total_pnl;
      ctx_net_worth := net_worth;
      ctx_win_rate := win_rate;
      ctx_best_performer := best_performer;
      ctx_total_investment := total_investment
    |}))).

(** [get_object_or_404(Trade, pk=pk, user=user)]: a key names at most one
    row of a table, so the first match is the match. *)
Definition get_trade_or_404 (pk : nat) (u : User) : View Trade :=
  db ← read_db;
  match u with
  | AnonymousUser => lift_result (Raise TypeError)
  | Authenticated uid =>
      match find (λ t, Nat.eqb (trade_id t) pk && owned_by uid t) (trade_table db) with
      | Some t => mret t
      | None => lift_result (Raise Http404)
      end
  end.

(** [trade.delete()]: the row goes, and with it the images that hang on it.
    (The flash message of [trade_delete] lives in the session, not in these
    tables, and is left out.) *)
Definition Trade_delete (t : Trade) : View unit :=
  db ← read_db;
  write_db {|
    trade_table := List.filter (λ t', negb (Nat.eqb (trade_id t') (trade_id t))) (trade_table db);
    strategy_table := strategy_table db;
    image_table := List.filter (λ i, negb (Nat.eqb (image_trade i) (trade_id t))) (image_table db);
    portfolio_table := portfolio_table db
  |}.

Definition trade_delete (pk : nat) : HttpRequest → View HttpResponse :=
  login_required (λ request,
    trade ← get_trade_or_404 pk (user request);
    if String.eqb (method request) "POST" then
      _ ← Trade_delete trade;
      mret (Redirect "trade_list")
    else mret (Render "journal/trade_confirm_delete.html" (TradeCtx trade))).

(** ** The sort resolution as the specification words it *)

Definition spec_direction (order : string) : Direction :=
  if String.eqb order "asc" then Asc else Desc.

Definition spec_sort (sort_by order : string) : Column * Direction :=
  if String.eqb sort_by "symbol" then (ColSymbol, spec_direction order)
  else if String.eqb sort_by "status" then (ColStatus, spec_direction order)
  else (ColEntryDate, Desc).

(** The user's rows, in table order. *)
Definition user_trades (uid : nat) (db : Database) : list Trade :=
  List.filter (owned_by uid) (trade_table db).

(** ** Vocabulary of the statements *)

(** The number a float stands for; none for infinities and NaN. *)
Definition float_value (f : spec_float) : option Q :=
  match f with
  | S754_zero _ => Some 0%Q
  | S754_finite s m e =>
      Some ((if s then -1 else 1) * inject_Z (Z.pos m) * 2 ^ e)%Q
  | _ => None
  end.

Definition number_value (x : Number) : option Q :=
  match x with
  | Int n => Some (inject_Z n)
  | Float f => float_value f
  end.

(** [w / c * 100] computed on the kernel's own binary64 floats and read
    back into the specification, to compare the model with. *)
Definition kernel_rate (w c : nat) : spec_float :=
  Prim2SF (of_uint63 (Uint63.of_Z (Z.of_nat w))
           / of_uint63 (Uint63.of_Z (Z.of_nat c)) * 100)%float.

(** Every pair of a closed count up to [n] and a winning count within it. *)
Definition counts_up_to (n : nat) : list (nat * nat) :=
  flat_map (λ c, map (λ w, (w, c)) (seq 0 (S c))) (seq 1 n).



(** Order on optional decimals, defined only between two present values. *)
Definition opt_lt (a b : option Q) : Prop :=
  match a, b with
  | Some x, Some y => (x < y)%Q
  | _, _ => False
  end.

Definition opt_le (a b : option Q) : Prop :=
  match a, b with
  | Some x, Some y => (x <= y)%Q
  | _, _ => False
  end.

(** The candidates for best performer, in the order of [trades]. *)
Definition candidates (trades : list Trade) : list Trade :=
  List.filter has_pnl (closed_trades trades).

(** The context [trade_list] builds for user [uid], query string [q] and
    database [db], once the best performer [best] is known. *)
Definition run_context (uid : nat) (q : QueryDict) (db : Database)
    (best : option Trade) : TradeListContext :=
  let sort_by := QueryDict_get q "sort_by" "entry_date" in
  let order := QueryDict_get q "order" "desc" in
  let rows := sort_rows (ordering_leb (spec_sort sort_by order)) (user_trades uid db) in
  {| ctx_trades := rows;
     ctx_current_sort := sort_by;
     ctx_current_order := order;
     ctx_total_pnl := total_pnl rows;
     ctx_net_worth := net_worth (portfolio_table db !! uid);
     ctx_win_rate := win_rate rows;
     ctx_best_performer := best;
     ctx_total_investment := total_investment rows |}.

(** The three sort orders, ascending. *)
Definition symbol_le (a b : Trade) : Prop := String.leb (symbol a) (symbol b) = true.
Definition status_le (a b : Trade) : Prop :=
  String.leb (status_value (status a)) (status_value (status b)) = true.
Definition entry_date_le (a b : Trade) : Prop := (entry_date a <= entry_date b)%Z.

(** The sum of a list of numbers, by recursion on the list. *)
Fixpoint sum_of (xs : list Q) : Q :=
  match xs with
  | [] => 0
  | x :: rest => x + sum_of rest
  end.

(** The same trade with another status. *)
Definition set_status (s : Status) (t : Trade) : Trade :=
  {| trade_id := trade_id t; trade_user := trade_user t; symbol := symbol t;
     entry_date := entry_date t; status := s; entry_price := entry_price t;
     quantity := quantity t; pnl := pnl t |}.

(** The context a run of a view rendered, if it rendered a trade list. *)
Definition rendered_context (r : Database * Result HttpResponse) : option TradeListContext :=
  match r with
  | (_, Ok (Render _ (TradeListCtx ctx))) => Some ctx
  | _ => None
  end.

(** A small database: three trades of user 7, one of user 8, and a
    portfolio for user 7 only. *)
Definition example_db : Database :=
  {| trade_table :=
       [ mkTrade 1 7 "MSFT" 20 CLOSED 150 2 (Some 100%Q);
         mkTrade 2 7 "AAPL" 25 OPEN 10 3 None;
         mkTrade 3 7 "TSLA" 22 CLOSED 20 5 (Some (-20)%Q);
         mkTrade 4 8 "IBM" 30 CLOSED 1 1 (Some 7%Q) ];
     strategy_table := [mkStrategy 1 7 "breakout"];
     image_table := [mkTradeImage 1 1 "chart.png" "entry" 21];
     portfolio_table := <[7%nat := mkPortfolio 1000]> ∅ |}.

(** The ids of the listed trades, in the order listed. *)
Definition listed_ids (request : HttpRequest) (db : Database) : option (list nat) :=
  ctx ← rendered_context (trade_list request db); Some (map trade_id (ctx_trades ctx)).

(** * The other views *)

(** [trade_detail] *)
Definition trade_detail (pk : nat) : HttpRequest → View HttpResponse :=
  login_required (λ request,
    trade ← get_trade_or_404 pk (user request);
    mret (Render "journal/trade_detail.html" (TradeCtx trade))).

(** ** Responses of the strategy page and of the JSON endpoints *)

#[local] Unset Elimination Schemes.
Inductive Json :=
  | JBool (b : bool)
  | JNum (n : nat)
  | JStr (s : string)
  | JList (items : list Json)
  | JObj (fields : list (string * Json)).
#[local] Set Elimination Schemes.

Inductive Response :=
  | StrategyPage (template : string) (strategies : list Strategy)
  | LoginRedirect
  | HttpResponseNotAllowed (permitted_methods : list string)
  | JsonResponse (data : Json).

(** [@login_required], at the response type of these views. *)
Definition login_required_r (view : HttpRequest → View Response)
    (request : HttpRequest) : View Response :=
  match user request with
  | AnonymousUser => mret LoginRedirect
  | Authenticated _ => view request
  end.

(** [@require_http_methods(methods)]: any other method is answered with
    405 and the view is not run. *)
Definition require_http_methods (methods : list string)
    (view : HttpRequest → View Response) (request : HttpRequest) : View Response :=
  if existsb (String.eqb (method request)) methods then view request
  else mret (HttpResponseNotAllowed methods).

(** [Strategy.objects.filter(user=u)], evaluated when the page is rendered.
    The view asks for no order; the rows are given in table order here and
    the statements below do not rely on it. *)
Definition Strategy_objects_filter (u : User) : View (list Strategy) :=
  db ← read_db;
  match u with
  | AnonymousUser => lift_result (Raise TypeError)
  | Authenticated uid =>
      mret (List.filter (λ s, Nat.eqb (strategy_user s) uid) (strategy_table db))
  end.

Definition strategy_list : HttpRequest → View Response :=
  login_required_r (λ request,
    strategies ← Strategy_objects_filter (user request);
    mret (StrategyPage "journal/strategy_list.html" strategies)).

(** [get_object_or_404(TradeImage, id=img_id, trade=trade)] *)
Definition get_image_or_404 (img_id : nat) (trade : Trade) : View TradeImage :=
  db ← read_db;
  match List.find (λ i, Nat.eqb (image_id i) img_id
                        && Nat.eqb (image_trade i) (trade_id trade)) (image_table db) with
  | Some i => mret i
  | None => lift_result (Raise Http404)
  end.

(** [image.delete()] *)
Definition TradeImage_delete (image : TradeImage) : View unit :=
  db ← read_db;
  write_db {|
    trade_table := trade_table db;
    strategy_table := strategy_table db;
    image_table :=
      List.filter (λ i, negb (Nat.eqb (image_id i) (image_id image))) (image_table db);
    portfolio_table := portfolio_table db
  |}.

Definition delete_trade_image (pk img_id : nat) : HttpRequest → View Response :=
  login_required_r (require_http_methods ["DELETE"] (λ request,
    trade ← get_trade_or_404 pk (user request);
    image ← get_image_or_404 img_id trade;
    _ ← TradeImage_delete image;
    mret (JsonResponse (JObj [("success", JBool true);
                              ("message", JStr "Image deleted successfully!")])))).

(** [trade.images.all().order_by('-created_at')] *)
Definition created_at_desc (a b : TradeImage) : bool := Z.leb (created_at b) (created_at a).

Definition trade_images_all (trade : Trade) : View (list TradeImage) :=
  db ← read_db;
  mret (sort_rows created_at_desc
          (List.filter (λ i, Nat.eqb (image_trade i) (trade_id trade)) (image_table db))).

(** [trade_images].  The storage's URL of a file and the formatting of a
    time stamp are library functions; the view is modelled over them. *)
Section ImageListing.
Variable image_url : string → string.
Variable strftime : string → Z → string.

Definition image_data (img : TradeImage) : Json :=
  JObj [("id", JNum (image_id img));
        ("url", JStr (image_url (image_file img)));
        ("caption", JStr (caption img));
        ("created_at", JStr (strftime "%b %d, %Y %I:%M %p" (created_at img)))].

Definition trade_images (pk : nat) : HttpRequest → View Response :=
  login_required_r (λ request,
    trade ← get_trade_or_404 pk (user request);
    images ← trade_images_all trade;
    let images_data := map image_data images in
    mret (JsonResponse (JObj [("images", JList images_data)]))).
End ImageListing.

(** ** Views that take a form *)

(** [journal/forms.py] is not part of the sources at hand.  What the views
    use of a form is taken as an interface: building a form from the
    request data, validating it (which may read the database), and the
    model instance that [form.save(commit=False)] hands back.  [POST] and
    [FILES] are the request's body, which [HttpRequest] above does not
    carry; [storage_url] is the URL the file storage gives a stored file. *)
Class Forms := {
  Form : Type;
  POST : HttpRequest → QueryDict;
  FILES : HttpRequest → QueryDict;
  TradeForm : User → option QueryDict → option Trade → Form;
  StrategyForm : option QueryDict → Form;
  TradeImageForm : QueryDict → QueryDict → Form;
  is_valid : Form → Database → bool;
  trade_instance : Form → Trade;
  strategy_instance : Form → Strategy;
  image_instance : Form → TradeImage;
  form_errors : Form → Json;
  storage_url : string → string
}.

Inductive FormResponse `{Forms} :=
  | FormPage (template : string) (form : Form) (title : string)
  | RedirectTo (to : string) (pk : option nat)
  | FormLoginRedirect.

(** [@login_required], at the response type of the form views. *)
Definition login_required_f `{Forms} (view : HttpRequest → View FormResponse)
    (request : HttpRequest) : View FormResponse :=
  match user request with
  | AnonymousUser => mret FormLoginRedirect
  | Authenticated _ => view request
  end.

(** [form.is_valid()] *)
Definition form_is_valid `{Forms} (form : Form) : View bool :=
  db ← read_db; mret (is_valid form db).

(** The row of the user, needed where the code stores [request.user]; an
    anonymous user has none (not reached behind [@login_required]). *)
Definition user_row (u : User) : View nat :=
  match u with
  | AnonymousUser => lift_result (Raise TypeError)
  | Authenticated uid => mret uid
  end.

(** The key the database gives the next row of a table. *)
Definition next_key (keys : list nat) : nat := S (foldr Nat.max 0%nat keys).

Definition with_trade_id (pk : nat) (t : Trade) : Trade :=
  {| trade_id := pk; trade_user := trade_user t; symbol := symbol t;
     entry_date := entry_date t; status := status t; entry_price := entry_price t;
     quantity := quantity t; pnl := pnl t |}.

Definition with_trade_user (uid : nat) (t : Trade) : Trade :=
  {| trade_id := trade_id t; trade_user := uid; symbol := symbol t;
     entry_date := entry_date t; status := status t; entry_price := entry_price t;
     quantity := quantity t; pnl := pnl t |}.

Definition with_strategy_id (pk : nat) (s : Strategy) : Strategy :=
  {| strategy_id := pk; strategy_user := strategy_user s; strategy_name := strategy_name s |}.

Definition with_strategy_user (uid : nat) (s : Strategy) : Strategy :=
  {| strategy_id := strategy_id s; strategy_user := uid; strategy_name := strategy_name s |}.

Definition with_image_id (pk : nat) (i : TradeImage) : TradeImage :=
  {| image_id := pk; image_trade := image_trade i; image_file := image_file i;
     caption := caption i; created_at := created_at i |}.

Definition with_image_trade (trade : nat) (i : TradeImage) : TradeImage :=
  {| image_id := image_id i; image_trade := trade; image_file := image_file i;
     caption := caption i; created_at := created_at i |}.

(** [save()] of an instance that has no key yet: the row is added under a
    new key, and the instance carries that key from then on. *)
Definition Trade_insert (t : Trade) : View Trade :=
  db ← read_db;
  let saved := with_trade_id (next_key (map trade_id (trade_table db))) t in
  _ ← write_db {| trade_table := trade_table db ++ [saved];
                  strategy_table := strategy_table db;
                  image_table := image_table db;
                  portfolio_table := portfolio_table db |};
  mret saved.

Definition Strategy_insert (s : Strategy) : View Strategy :=
  db ← read_db;
  let saved := with_strategy_id (next_key (map strategy_id (strategy_table db))) s in
  _ ← write_db {| trade_table := trade_table db;
                  strategy_table := strategy_table db ++ [saved];
                  image_table := image_table db;
                  portfolio_table := portfolio_table db |};
  mret saved.

Definition TradeImage_insert (i : TradeImage) : View TradeImage :=
  db ← read_db;
  let saved := with_image_id (next_key (map image_id (image_table db))) i in
  _ ← write_db {| trade_table := trade_table db;
                  strategy_table := strategy_table db;
                  image_table := image_table db ++ [saved];
                  portfolio_table := portfolio_table db |};
  mret saved.

(** [save()] of an instance that has a key: the row under that key is
    replaced. *)
Definition Trade_update (t : Trade) : View unit :=
  db ← read_db;
  write_db {| trade_table :=
                map (λ row, if Nat.eqb (trade_id row) (trade_id t) then t else row)
                    (trade_table db);
              strategy_table := strategy_table db;
              image_table := image_table db;
              portfolio_table := portfolio_table db |}.

Definition trade_create `{Forms} : HttpRequest → View FormResponse :=
  login_required_f (λ request,
    if String.eqb (method request) "POST" then
      let form := TradeForm (user request) (Some (POST request)) None in
      valid ← form_is_valid form;
      if (valid : bool) then
        let trade := trade_instance form in
        uid ← user_row (user request);
        let trade := with_trade_user uid trade in
        _ ← Trade_insert trade;
        mret (RedirectTo "trade_list" None)
      else mret (FormPage "journal/trade_form.html" form "Log New Trade")
    else
      let form := TradeForm (user request) None None in
      mret (FormPage "journal/trade_form.html" form "Log New Trade")).

Definition trade_update `{Forms} (pk : nat) : HttpRequest → View FormResponse :=
  login_required_f (λ request,
    trade ← get_trade_or_404 pk (user request);
    if String.eqb (method request) "POST" then
      let form := TradeForm (user request) (Some (POST request)) (Some trade) in
      valid ← form_is_valid form;
      if (valid : bool) then
        _ ← Trade_update (trade_instance form);
        mret (RedirectTo "trade_detail" (Some pk))
      else mret (FormPage "journal/trade_form.html" form "Update Trade")
    else
      let form := TradeForm (user request) None (Some trade) in
      mret (FormPage "journal/trade_form.html" form "Update Trade")).

Definition strategy_create `{Forms} : HttpRequest → View FormResponse :=
  login_required_f (λ request,
    if String.eqb (method request) "POST" then
      let form := StrategyForm (Some (POST request)) in
      valid ← form_is_valid form;
      if (valid : bool) then
        let strategy := strategy_instance form in
        uid ← user_row (user request);
        let strategy := with_strategy_user uid strategy in
        _ ← Strategy_insert strategy;
        mret (RedirectTo "strategy_list" None)
      else mret (FormPage "journal/strategy_form.html" form "Create New Strategy")
    else
      let form := StrategyForm None in
      mret (FormPage "journal/strategy_form.html" form "Create New Strategy")).

Definition upload_trade_chart `{Forms} (pk : nat) : HttpRequest → View Response :=
  login_required_r (require_http_methods ["POST"] (λ request,
    trade ← get_trade_or_404 pk (user request);
    if String.eqb (method request) "POST" then
      let form := TradeImageForm (POST request) (FILES request) in
      valid ← form_is_valid form;
      if (valid : bool) then
        let trade_image := image_instance form in
        let trade_image := with_image_trade (trade_id trade) trade_image in
        trade_image ← TradeImage_insert trade_image;
        mret (JsonResponse (JObj [
          ("success", JBool true);
          ("message", JStr "Chart/Image uploaded successfully!");
          ("image_id", JNum (image_id trade_image));
          ("image_url", JStr (storage_url (image_file trade_image)))]))
      else
        mret (JsonResponse (JObj [
          ("success", JBool false);
          ("message", JStr "Error uploading chart. Please try again.");
          ("errors", form_errors form)]))
    else
      mret (JsonResponse (JObj [("success", JBool false);
                                ("message", JStr "Invalid request method")])))).

(** ** Vocabulary of the statements on these views *)

(** The trade with primary key [pk] that user [uid] owns, if any. *)
Definition owned_trade (pk uid : nat) (db : Database) : option Trade :=
  List.find (λ t, Nat.eqb (trade_id t) pk && owned_by uid t) (trade_table db).

(** The image [img_id] of trade [pk], if any. *)
Definition image_of_trade (img_id pk : nat) (db : Database) : option TradeImage :=
  List.find (λ i, Nat.eqb (image_id i) img_id && Nat.eqb (image_trade i) pk)
            (image_table db).

(** The images of trade [pk], in table order. *)
Definition images_of (pk : nat) (db : Database) : list TradeImage :=
  List.filter (λ i, Nat.eqb (image_trade i) pk) (image_table db).

(** Primary keys are unique in each table. *)
Definition unique_keys (db : Database) : Prop :=
  NoDup (map trade_id (trade_table db)) ∧ NoDup (map image_id (image_table db)).

(** The database once trade [pk] and its images are deleted. *)
Definition without_trade (pk : nat) (db : Database) : Database :=
  {| trade_table := List.filter (λ t, negb (Nat.eqb (trade_id t) pk)) (trade_table db);
     strategy_table := strategy_table db;
     image_table := List.filter (λ i, negb (Nat.eqb (image_trade i) pk)) (image_table db);
     portfolio_table := portfolio_table db |}.

(** The database once image [img_id] is deleted. *)
Definition without_image (img_id : nat) (db : Database) : Database :=
  {| trade_table := trade_table db;
     strategy_table := strategy_table db;
     image_table := List.filter (λ i, negb (Nat.eqb (image_id i) img_id)) (image_table db);
     portfolio_table := portfolio_table db |}.

(** The database with one more trade, strategy or image at the end of its
    table. *)
Definition add_trade (t : Trade) (db : Database) : Database :=
  {| trade_table := trade_table db ++ [t];
     strategy_table := strategy_table db;
     image_table := image_table db;
     portfolio_table := portfolio_table db |}.

Definition add_strategy (s : Strategy) (db : Database) : Database :=
  {| trade_table := trade_table db;
     strategy_table := strategy_table db ++ [s];
     image_table := image_table db;
     portfolio_table := portfolio_table db |}.

Definition add_image (i : TradeImage) (db : Database) : Database :=
  {| trade_table := trade_table db;
     strategy_table := strategy_table db;
     image_table := image_table db ++ [i];
     portfolio_table := portfolio_table db |}.

(** The database with the row of trade [t]'s key replaced by [t]. *)
Definition replace_trade (t : Trade) (db : Database) : Database :=
  {| trade_table :=
       map (λ row, if Nat.eqb (trade_id row) (trade_id t) then t else row) (trade_table db);
     strategy_table := strategy_table db;
     image_table := image_table db;
     portfolio_table := portfolio_table db |}.

(** A stand-in for the forms, to run the form views on examples: the body
    of a request is read off its query string; a form is its data and its
    instance, valid when the data name a symbol (a name, a file); a trade
    form writes the symbol into its instance, or into a new trade. *)
Definition example_forms : Forms :=
  {| Form := option QueryDict * option Trade;
     POST := GET;
     FILES := GET;
     TradeForm := λ _ data instance, (data, instance);
     StrategyForm := λ data, (data, None);
     TradeImageForm := λ data _, (Some data, None);
     is_valid := λ form _,
       match fst form with
       | Some data => negb (String.eqb (QueryDict_get data "name" "") "")
       | None => false
       end;
     trade_instance := λ form,
       let base := default (mkTrade 0 0 "" 40 OPEN 10 5 None) (snd form) in
       {| trade_id := trade_id base; trade_user := trade_user base;
          symbol := QueryDict_get (default [] (fst form)) "name" "";
          entry_date := entry_date base; status := status base;
          entry_price := entry_price base; quantity := quantity base;
          pnl := pnl base |};
     strategy_instance := λ form,
       mkStrategy 0 0 (QueryDict_get (default [] (fst form)) "name" "");
     image_instance := λ form,
       mkTradeImage 0 0 (QueryDict_get (default [] (fst form)) "name" "") "" 50;
     form_errors := λ _, JObj [("name", JList [JStr "This field is required."])];
     storage_url := λ name, String.append "/media/" name |}.

(** The JSON body of a successful image deletion. *)
Definition image_deleted : Json :=
  JObj [("success", JBool true); ("message", JStr "Image deleted successfully!")].

(** * Lemmas on the parts *)

(** ** Sorting *)

Section SortingFacts.
Context {A : Type} (leb : A → A → bool).
Hypothesis leb_total : ∀ a b, leb a b = true ∨ leb b a = true.

Lemma insert_row_perm x l : Permutation (insert_row leb x l) (x :: l).
Proof.
  induction l as [|y l IH]; simpl; [done|].
  destruct (leb x y); [done|].
  rewrite IH. apply perm_swap.
Qed.

Lemma sort_rows_perm l : Permutation (sort_rows leb l) l.
Proof.
  induction l as [|x l IH]; simpl; [done|].
  rewrite insert_row_perm. by constructor.
Qed.

Lemma insert_row_hdrel a x l :
  leb a x = true → HdRel (λ u v, leb u v = true) a l →
  HdRel (λ u v, leb u v = true) a (insert_row leb x l).
Proof.
  intros Hax Hal. destruct l as [|y l]; simpl; [by constructor|].
  destruct (leb x y); constructor; [done|]. by inversion Hal.
Qed.

Lemma insert_row_sorted x l :
  Sorted (λ u v, leb u v = true) l →
  Sorted (λ u v, leb u v = true) (insert_row leb x l).
Proof.
  induction 1 as [|y l Hs IH Hhd]; simpl.
  - repeat constructor.
  - destruct (leb x y) eqn:Hxy.
    + constructor; [by constructor|by constructor].
    + constructor; [done|].
      apply insert_row_hdrel; [|done].
      destruct (leb_total x y); congruence.
Qed.

Lemma sort_rows_sorted l : Sorted (λ u v, leb u v = true) (sort_rows leb l).
Proof.
  induction l as [|x l IH]; simpl; [constructor|].
  by apply insert_row_sorted.
Qed.
End SortingFacts.

Lemma column_leb_total c a b : column_leb c a b = true ∨ column_leb c b a = true.
Proof.
  destruct c; simpl.
  - apply String.leb_total.
  - apply String.leb_total.
  - destruct (Z.leb_spec (entry_date a) (entry_date b)); [by left|right].
    apply Z.leb_le. lia.
Qed.

Lemma ordering_leb_total o a b : ordering_leb o a b = true ∨ ordering_leb o b a = true.
Proof.
  destruct o as [c []]; unfold ordering_leb; simpl; apply column_leb_total.
Qed.

Lemma ascii_compare_lt_trans c1 c2 c3 :
  Ascii.compare c1 c2 = Lt → Ascii.compare c2 c3 = Lt → Ascii.compare c1 c3 = Lt.
Proof. unfold Ascii.compare. rewrite !N.compare_lt_iff. lia. Qed.

Lemma string_compare_trans s1 : ∀ s2 s3,
  String.compare s1 s2 ≠ Gt → String.compare s2 s3 ≠ Gt → String.compare s1 s3 ≠ Gt.
Proof.
  induction s1 as [|c1 s1 IH]; intros [|c2 s2] [|c3 s3]; simpl; try done.
  destruct (Ascii.compare c1 c2) eqn:H12; [|..|done].
  - apply Ascii.compare_eq_iff in H12 as ->.
    destruct (Ascii.compare c2 c3); [apply IH|done..].
  - destruct (Ascii.compare c2 c3) eqn:H23; [| |done].
    + apply Ascii.compare_eq_iff in H23 as <-. by rewrite H12.
    + by rewrite (ascii_compare_lt_trans _ _ _ H12 H23).
Qed.

Lemma string_leb_trans s1 s2 s3 :
  String.leb s1 s2 = true → String.leb s2 s3 = true → String.leb s1 s3 = true.
Proof.
  unfold String.leb. intros H12 H23.
  pose proof (string_compare_trans s1 s2 s3) as H.
  destruct (String.compare s1 s2), (String.compare s2 s3), (String.compare s1 s3);
    try done; exfalso; by apply H.
Qed.

Lemma column_leb_trans c x y z :
  column_leb c x y = true → column_leb c y z = true → column_leb c x z = true.
Proof.
  destruct c; simpl; [apply string_leb_trans..|].
  rewrite !Z.leb_le. lia.
Qed.

Lemma ordering_leb_trans o : Transitive (λ a b, ordering_leb o a b = true).
Proof.
  destruct o as [c []]; unfold ordering_leb; simpl; intros x y z H1 H2;
    eauto using column_leb_trans.
Qed.

(** The [order_by] argument that [apply_sort] builds always names a column,
    and names the one the specification describes. *)
Lemma apply_sort_resolves sort_by order qs :
  ∃ field, qs_ordering (apply_sort sort_by order qs) = Some field
         ∧ resolve_ordering field = Some (spec_sort sort_by order)
         ∧ qs_user (apply_sort sort_by order qs) = qs_user qs.
Proof.
  unfold apply_sort, spec_sort, spec_direction. simpl.
  destruct (String.eqb sort_by "symbol") eqn:Hsym; simpl.
  - destruct (String.eqb order "asc"); simpl; eexists; (split; [reflexivity|split; reflexivity]).
  - destruct (String.eqb sort_by "status") eqn:Hst; simpl.
    + destruct (String.eqb order "asc"); simpl; eexists; (split; [reflexivity|split; reflexivity]).
    + eexists; (split; [reflexivity|split; reflexivity]).
Qed.

(** ** [max] with a key *)

Lemma opt_lt_le a b : opt_lt a b → opt_le a b.
Proof. destruct a, b; simpl; try done. apply Qlt_le_weak. Qed.

Lemma opt_lt_le_trans a b c : opt_le a b → opt_lt b c → opt_lt a c.
Proof. destruct a, b, c; simpl; try done. apply Qle_lt_trans. Qed.

Lemma opt_le_refl a : is_Some a → opt_le a a.
Proof. intros [x ->]. simpl. apply Qle_refl. Qed.

Lemma py_gt_Some x y :
  py_gt (Some x) (Some y) = Ok true ∧ (y < x)%Q ∨
  py_gt (Some x) (Some y) = Ok false ∧ (x <= y)%Q.
Proof.
  simpl. destruct (Qle_bool x y) eqn:H; simpl.
  - right. split; [done|]. by apply Qle_bool_iff.
  - left. split; [done|]. apply Qnot_le_lt. intros Hle.
    apply Qle_bool_iff in Hle. congruence.
Qed.

Section PyMaxFacts.
Context {A : Type} (key : A → option Q).

(** Invariant of the loop: the items seen so far split around the running
    maximum, strictly smaller before it and no greater after it. *)
Lemma max_loop_first rest : ∀ l1 m l2,
  is_Some (key m) →
  Forall (λ t, opt_lt (key t) (key m)) l1 →
  Forall (λ t, opt_le (key t) (key m)) l2 →
  Forall (λ t, is_Some (key t)) rest →
  ∃ b l1' l2',
    max_loop key m (key m) rest = Ok b
    ∧ l1 ++ m :: l2 ++ rest = l1' ++ b :: l2'
    ∧ is_Some (key b)
    ∧ Forall (λ t, opt_lt (key t) (key b)) l1'
    ∧ Forall (λ t, opt_le (key t) (key b)) l2'.
Proof.
  induction rest as [|item rest IH]; intros l1 m l2 Hm H1 H2 Hrest.
  - exists m, l1, l2. rewrite app_nil_r. by simpl.
  - apply Forall_cons in Hrest as [[v Hv] Hrest].
    destruct Hm as [mv Hmv]. simpl. rewrite Hv, Hmv.
    destruct (py_gt_Some v mv) as [[-> Hlt]|[-> Hle]]; simpl.
    + rewrite <- Hv.
      destruct (IH (l1 ++ m :: l2) item [])
        as (b & l1' & l2' & Hrun & Hsplit & Hb & Hl1 & Hl2); try done.
      * rewrite Hv. apply Forall_app. split; [|apply Forall_cons; split].
        -- eapply Forall_impl; [exact H1|]. intros t Ht. simpl in Ht.
           eapply opt_lt_le_trans; [apply opt_lt_le; exact Ht|].
           by rewrite Hmv.
        -- by rewrite Hmv.
        -- eapply Forall_impl; [exact H2|]. intros t Ht. simpl in Ht.
           eapply opt_lt_le_trans; [exact Ht|]. by rewrite Hmv.
      * exists b, l1', l2'. split; [done|]. split; [|done].
        rewrite <- Hsplit. by rewrite <- !app_assoc.
    + rewrite <- Hmv.
      destruct (IH l1 m (l2 ++ [item]))
        as (b & l1' & l2' & Hrun & Hsplit & Hb & Hl1 & Hl2); try done.
      * apply Forall_app. split; [done|].
        apply Forall_cons. split; [|done]. by rewrite Hv, Hmv.
      * exists b, l1', l2'. split; [done|]. split; [|done].
        rewrite <- Hsplit. by rewrite <- !app_assoc.
Qed.

Lemma py_max_first xs :
  Forall (λ t, is_Some (key t)) xs →
  match xs with
  | [] => py_max key xs = Ok None
  | _ :: _ =>
      ∃ b l1 l2,
        py_max key xs = Ok (Some b)
        ∧ xs = l1 ++ b :: l2
        ∧ is_Some (key b)
        ∧ Forall (λ t, opt_lt (key t) (key b)) l1
        ∧ Forall (λ t, opt_le (key t) (key b)) l2
  end.
Proof.
  destruct xs as [|x rest]; [done|].
  intros [Hx Hrest]%Forall_cons.
  destruct (max_loop_first rest [] x [] Hx)
    as (b & l1 & l2 & Hrun & Hsplit & Hb & Hl1 & Hl2); try done.
  exists b, l1, l2. simpl. rewrite Hrun. by simpl.
Qed.
End PyMaxFacts.

Lemma candidates_have_pnl trades : Forall (λ t, is_Some (pnl t)) (candidates trades).
Proof.
  unfold candidates. apply List.Forall_forall. intros t Ht.
  apply filter_In in Ht as [_ Ht]. unfold has_pnl in Ht.
  destruct (pnl t); [by eexists|done].
Qed.

Lemma is_closed_CLOSED t : is_closed t = true ↔ status t = CLOSED.
Proof. unfold is_closed. destruct (status t); simpl; split; done. Qed.

Lemma In_candidates t trades :
  In t (candidates trades) ↔ In t trades ∧ status t = CLOSED ∧ is_Some (pnl t).
Proof.
  unfold candidates, closed_trades. rewrite !filter_In, is_closed_CLOSED.
  unfold has_pnl. destruct (pnl t) as [p|].
  - split; [intros [[? ?] _]; eauto|intros (? & ? & _); done].
  - split; [intros [_ ?]; done|]. intros (_ & _ & [? ?]). done.
Qed.

(** [best_performer] never raises, and returns the first maximum of the
    candidates. *)
Lemma best_performer_first trades :
  match candidates trades with
  | [] => best_performer trades = Ok None
  | _ :: _ =>
      ∃ b l1 l2,
        best_performer trades = Ok (Some b)
        ∧ candidates trades = l1 ++ b :: l2
        ∧ is_Some (pnl b)
        ∧ Forall (λ t, opt_lt (pnl t) (pnl b)) l1
        ∧ Forall (λ t, opt_le (pnl t) (pnl b)) l2
  end.
Proof. apply (py_max_first pnl), candidates_have_pnl. Qed.

Lemma best_performer_total trades : ∃ r, best_performer trades = Ok r.
Proof.
  pose proof (best_performer_first trades) as H.
  destruct (candidates trades); [by eexists|].
  destruct H as (b & ? & ? & -> & _). by eexists.
Qed.

(** ** Running the view *)

(** For a logged-in user the view always renders, leaves the database as
    it was, and its context is the one computed from the sorted rows. *)
Lemma trade_list_run uid m q db :
  ∃ best,
    best_performer (ctx_trades (run_context uid q db best)) = Ok best
    ∧ trade_list (mkRequest (Authenticated uid) m q) db
      = (db, Ok (Render "journal/trade_list.html"
                   (TradeListCtx (run_context uid q db best)))).
Proof.
  set (sort_by := QueryDict_get q "sort_by" "entry_date").
  set (order := QueryDict_get q "order" "desc").
  set (rows := sort_rows (ordering_leb (spec_sort sort_by order)) (user_trades uid db)).
  destruct (best_performer_total rows) as [best Hbest].
  exists best. split; [exact Hbest|].
  unfold trade_list, login_required. cbn [user GET].
  fold sort_by order.
  destruct (apply_sort_resolves sort_by order (Trade_objects_filter (Authenticated uid)))
    as (field & Hfield & Hres & Huser).
  unfold mbind, View_bind, QuerySet_fetch, read_db, lift_result, QuerySet_rows.
  unfold mbind, View_bind.
  rewrite Huser, Hfield, Hres. cbn [qs_user Trade_objects_filter].
  fold (user_trades uid db). fold rows. rewrite Hbest.
  reflexivity.
Qed.

(** Run the view for a logged-in user and offer the context it renders. *)
Ltac run_trade_list uid m q db best Hbest Hrun :=
  destruct (trade_list_run uid m q db) as (best & Hbest & Hrun);
  exists (run_context uid q db best); split; [exact Hrun|].

(** ** Request parameters *)

Lemma QueryDict_get_absent q key default :
  (∀ v, ¬ In (key, v) q) → QueryDict_get q key default = default.
Proof.
  induction q as [|[k v] q IH]; intros Habs; simpl; [done|].
  destruct (String.eqb_spec k key) as [->|Hne].
  - exfalso. apply (Habs v). by left.
  - apply IH. intros v' Hin. apply (Habs v'). by right.
Qed.

Lemma QueryDict_get_last q1 q2 key v default :
  (∀ v', ¬ In (key, v') q2) → QueryDict_get (q1 ++ (key, v) :: q2) key default = v.
Proof.
  revert default. induction q1 as [|[k' v'] q1 IH]; intros default Habs; simpl.
  - rewrite String.eqb_refl. by apply QueryDict_get_absent.
  - destruct (String.eqb k' key); by apply IH.
Qed.

(** ** What the sorted rows look like *)

(** The rows come out sorted in the strong sense: every row is in order
    with every later row, not only with the next one. *)
Lemma sorted_rows_ordering o rows :
  StronglySorted (λ a b, ordering_leb o a b = true) (sort_rows (ordering_leb o) rows).
Proof.
  apply Sorted_StronglySorted; [apply ordering_leb_trans|].
  apply sort_rows_sorted, ordering_leb_total.
Qed.

Lemma StronglySorted_weaken {A} (R R' : A → A → Prop) l :
  (∀ a b, R a b → R' a b) → StronglySorted R l → StronglySorted R' l.
Proof.
  intros HR. induction 1 as [|a l _ IH Hall]; constructor; [done|].
  eapply Forall_impl; eauto.
Qed.

Lemma Sorted_entry_date_desc rows :
  StronglySorted (flip entry_date_le)
    (sort_rows (ordering_leb (ColEntryDate, Desc)) rows).
Proof.
  eapply StronglySorted_weaken; [|apply (sorted_rows_ordering (ColEntryDate, Desc))].
  intros a b. unfold flip, entry_date_le, ordering_leb. simpl. apply Z.leb_le.
Qed.

Lemma spec_sort_fallback sort_by order :
  sort_by ≠ "symbol" → sort_by ≠ "status" → spec_sort sort_by order = (ColEntryDate, Desc).
Proof.
  intros H1 H2. unfold spec_sort.
  apply String.eqb_neq in H1, H2. by rewrite H1, H2.
Qed.

(** ** The view on a small database *)

Example listing_default :
  listed_ids (mkRequest (Authenticated 7) "GET" []) example_db = Some [2; 3; 1]%nat.
Proof. by vm_compute. Qed.

Example listing_symbol_asc :
  listed_ids (mkRequest (Authenticated 7) "GET" [("sort_by", "symbol"); ("order", "asc")])
             example_db = Some [2; 1; 3]%nat.
Proof. by vm_compute. Qed.

Example listing_symbol_other_order :
  listed_ids (mkRequest (Authenticated 7) "GET" [("sort_by", "symbol"); ("order", "up")])
             example_db = Some [3; 1; 2]%nat.
Proof. by vm_compute. Qed.

Example listing_status_desc :
  listed_ids (mkRequest (Authenticated 7) "GET" [("sort_by", "status")])
             example_db = Some [2; 1; 3]%nat.
Proof. by vm_compute. Qed.

Example listing_unknown_sort :
  listed_ids (mkRequest (Authenticated 7) "GET" [("sort_by", "pnl"); ("order", "asc")])
             example_db = Some [2; 3; 1]%nat.
Proof. by vm_compute. Qed.

Example listing_repeated_key :
  listed_ids (mkRequest (Authenticated 7) "GET"
                [("sort_by", "status"); ("order", "asc"); ("sort_by", "symbol")])
             example_db = Some [2; 1; 3]%nat.
Proof. by vm_compute. Qed.

Example listing_figures :
  (ctx ← rendered_context (trade_list (mkRequest (Authenticated 7) "GET" []) example_db);
   Some (ctx_total_pnl ctx, ctx_total_investment ctx, ctx_win_rate ctx,
         trade_id <$> ctx_best_performer ctx, ctx_net_worth ctx))
  = Some (80%Q, 430%Q, Float (Prim2SF 50%float), Some 1%nat, 1000%Q).
Proof. by vm_compute. Qed.

Example listing_other_user :
  (ctx ← rendered_context (trade_list (mkRequest (Authenticated 8) "GET" []) example_db);
   Some (map trade_id (ctx_trades ctx), ctx_total_pnl ctx, ctx_win_rate ctx,
         trade_id <$> ctx_best_performer ctx, ctx_net_worth ctx))
  = Some ([4%nat], 7%Q, Float (Prim2SF 100%float), Some 4%nat, 0%Q).
Proof. by vm_compute. Qed.

Example listing_anonymous :
  trade_list (mkRequest AnonymousUser "GET" []) example_db = (example_db, Ok RedirectToLogin).
Proof. reflexivity. Qed.

(** * Properties of the listing view *)

(** ** Sort order, echoed parameters, frame and net worth *)

(** C1.  Sort resolution.  For every request of a logged-in user the view
    renders the user's trades, reordered and nothing else.  With
    [sort_by = "symbol"] (resp. ["status"]) they are sorted on that column,
    ascending when [order = "asc"] and descending for every other [order];
    for every other [sort_by] (the default ["entry_date"] and unrecognised
    strings alike) they are sorted by [entry_date] descending, and the rows
    are the same whatever [order] says. *)
Theorem trade_list_sort_resolution (uid : nat) (m : string) (q : QueryDict) (db : Database) :
  let sort_by := QueryDict_get q "sort_by" "entry_date" in
  let order := QueryDict_get q "order" "desc" in
  ∃ ctx,
    trade_list (mkRequest (Authenticated uid) m q) db
      = (db, Ok (Render "journal/trade_list.html" (TradeListCtx ctx)))
    ∧ Permutation (ctx_trades ctx) (user_trades uid db)
    ∧ (sort_by = "symbol" → order = "asc" →
         StronglySorted symbol_le (ctx_trades ctx))
    ∧ (sort_by = "symbol" → order ≠ "asc" →
         StronglySorted (flip symbol_le) (ctx_trades ctx))
    ∧ (sort_by = "status" → order = "asc" →
         StronglySorted status_le (ctx_trades ctx))
    ∧ (sort_by = "status" → order ≠ "asc" →
         StronglySorted (flip status_le) (ctx_trades ctx))
    ∧ (sort_by ≠ "symbol" → sort_by ≠ "status" →
         StronglySorted (flip entry_date_le) (ctx_trades ctx)
         ∧ ctx_trades ctx
           = sort_rows (ordering_leb (ColEntryDate, Desc)) (user_trades uid db)).
Proof.
  intros sort_by order.
  run_trade_list uid m q db best Hbest Hrun.
  cbn [run_context ctx_trades]. fold sort_by order.
  split; [apply sort_rows_perm|].
  split; [|split; [|split; [|split]]].
  - intros -> ->. apply (sorted_rows_ordering (ColSymbol, Asc)).
  - intros -> Hord. unfold spec_sort, spec_direction.
    apply String.eqb_neq in Hord. rewrite Hord.
    apply (sorted_rows_ordering (ColSymbol, Desc)).
  - intros -> ->. apply (sorted_rows_ordering (ColStatus, Asc)).
  - intros -> Hord. unfold spec_sort, spec_direction.
    apply String.eqb_neq in Hord. rewrite Hord.
    apply (sorted_rows_ordering (ColStatus, Desc)).
  - intros Hsym Hst. rewrite (spec_sort_fallback _ _ Hsym Hst).
    split; [apply Sorted_entry_date_desc|done].
Qed.

(** C10.  The context echoes the raw parameters.  [current_sort] and
    [current_order] are the values read from the query string: the last
    value given for the key, the defaults ["entry_date"] and ["desc"] when
    the key is absent.  They are not the resolved sort: for an unrecognised
    [sort_by] the rows are sorted by [entry_date] descending while
    [current_sort] is still the unrecognised string and [current_order]
    still the requested order. *)
Theorem trade_list_echoes_parameters (uid : nat) (m : string) (q : QueryDict) (db : Database) :
  ∃ ctx,
    trade_list (mkRequest (Authenticated uid) m q) db
      = (db, Ok (Render "journal/trade_list.html" (TradeListCtx ctx)))
    ∧ ctx_current_sort ctx = QueryDict_get q "sort_by" "entry_date"
    ∧ ctx_current_order ctx = QueryDict_get q "order" "desc"
    ∧ ((∀ v, ¬ In ("sort_by", v) q) → ctx_current_sort ctx = "entry_date")
    ∧ ((∀ v, ¬ In ("order", v) q) → ctx_current_order ctx = "desc")
    ∧ (∀ q1 q2 v, q = q1 ++ ("sort_by", v) :: q2 → (∀ v', ¬ In ("sort_by", v') q2) →
         ctx_current_sort ctx = v)
    ∧ (∀ q1 q2 v, q = q1 ++ ("order", v) :: q2 → (∀ v', ¬ In ("order", v') q2) →
         ctx_current_order ctx = v)
    ∧ (ctx_current_sort ctx ≠ "symbol" → ctx_current_sort ctx ≠ "status" →
         ctx_trades ctx
           = sort_rows (ordering_leb (ColEntryDate, Desc)) (user_trades uid db)
         ∧ StronglySorted (flip entry_date_le) (ctx_trades ctx)).
Proof.
  run_trade_list uid m q db best Hbest Hrun.
  cbn [run_context ctx_trades ctx_current_sort ctx_current_order].
  split; [done|]. split; [done|].
  split; [apply QueryDict_get_absent|].
  split; [apply QueryDict_get_absent|].
  split; [intros q1 q2 v -> Habs; by apply QueryDict_get_last|].
  split; [intros q1 q2 v -> Habs; by apply QueryDict_get_last|].
  intros H1 H2. rewrite (spec_sort_fallback _ _ H1 H2).
  split; [done|apply Sorted_entry_date_desc].
Qed.

(** C8.  The listing view is read-only: whatever the request (logged in or
    not) and whatever the stored state, the database after the view is the
    database before it, table by table. *)
Theorem trade_list_read_only (request : HttpRequest) (db : Database) :
  fst (trade_list request db) = db
  ∧ trade_table (fst (trade_list request db)) = trade_table db
  ∧ strategy_table (fst (trade_list request db)) = strategy_table db
  ∧ image_table (fst (trade_list request db)) = image_table db
  ∧ portfolio_table (fst (trade_list request db)) = portfolio_table db.
Proof.
  assert (fst (trade_list request db) = db) as Hfst.
  { destruct request as [[|uid] m q].
    - reflexivity.
    - destruct (trade_list_run uid m q db) as (best & _ & ->). reflexivity. }
  rewrite Hfst. done.
Qed.

(** C6.  [net_worth] is the balance of the user's portfolio when the user
    has one, and 0 when the user has none. *)
Theorem trade_list_net_worth (uid : nat) (m : string) (q : QueryDict) (db : Database) :
  ∃ ctx,
    trade_list (mkRequest (Authenticated uid) m q) db
      = (db, Ok (Render "journal/trade_list.html" (TradeListCtx ctx)))
    ∧ (∀ p, portfolio_table db !! uid = Some p → ctx_net_worth ctx = current_balance p)
    ∧ (portfolio_table db !! uid = None → ctx_net_worth ctx = 0%Q).
Proof.
  run_trade_list uid m q db best Hbest Hrun.
  cbn [run_context ctx_net_worth].
  split; [intros p ->|intros ->]; reflexivity.
Qed.

(** ** Sums *)

Lemma fold_left_Qplus xs : ∀ a, (fold_left Qplus xs a == a + sum_of xs)%Q.
Proof.
  induction xs as [|x xs IH]; intros a; simpl.
  - ring.
  - rewrite IH. ring.
Qed.

Lemma py_sum_sum_of xs : (py_sum xs == sum_of xs)%Q.
Proof. unfold py_sum. rewrite fold_left_Qplus. ring. Qed.

Lemma sum_of_perm xs ys : Permutation xs ys → (sum_of xs == sum_of ys)%Q.
Proof.
  induction 1 as [|x xs ys _ IH|x y xs|xs ys zs _ IH1 _ IH2]; simpl.
  - reflexivity.
  - by rewrite IH.
  - ring.
  - by rewrite IH1.
Qed.

Lemma py_sum_perm xs ys : Permutation xs ys → (py_sum xs == py_sum ys)%Q.
Proof. intros H. rewrite !py_sum_sum_of. by apply sum_of_perm. Qed.

Lemma total_investment_perm trades trades' :
  Permutation trades trades' → (total_investment trades == total_investment trades')%Q.
Proof. intros H. apply py_sum_perm. by apply Permutation_map. Qed.

Lemma total_pnl_perm trades trades' :
  Permutation trades trades' → (total_pnl trades == total_pnl trades')%Q.
Proof. intros H. apply py_sum_perm. by apply Permutation_flat_map. Qed.

(** ** Win rate *)

(** *** Rounding stays below a bound

    The division and the multiplication of [win_rate] round to nearest.
    Rounding is followed through the shifts of the specification: a
    mantissa that is at most [K], and strictly less when bits were lost,
    stays so when it is shifted and when it is rounded. *)




















Lemma is_winning_iff t : is_winning t = true ↔ ∃ p, pnl t = Some p ∧ ¬ (p == 0)%Q ∧ (0 < p)%Q.
Proof.
  unfold is_winning, py_truthy. destruct (pnl t) as [p|].
  - split.
    + destruct (Qeq_bool p 0) eqn:Hz; simpl; [done|].
      intros Hpos. exists p. split; [done|]. split.
      * by apply Qeq_bool_neq.
      * apply Qnot_le_lt. intros Hle. apply Qle_bool_iff in Hle.
        rewrite Hle in Hpos. done.
    + intros (p' & [= <-] & Hnz & Hpos).
      destruct (Qeq_bool p 0) eqn:Hz; simpl.
      * apply Qeq_bool_iff in Hz. done.
      * destruct (Qle_bool p 0) eqn:Hle; [|done].
        apply Qle_bool_iff in Hle. exfalso. eapply Qlt_not_le; eauto.
  - split; [done|]. intros (p & ? & _). done.
Qed.

Lemma In_closed_trades t trades : In t (closed_trades trades) ↔ In t trades ∧ status t = CLOSED.
Proof. unfold closed_trades. by rewrite filter_In, is_closed_CLOSED. Qed.

Lemma In_winning_trades t trades :
  In t (winning_trades (closed_trades trades))
  ↔ In t trades ∧ status t = CLOSED ∧ ∃ p, pnl t = Some p ∧ ¬ (p == 0)%Q ∧ (0 < p)%Q.
Proof.
  unfold winning_trades. rewrite filter_In, In_closed_trades, is_winning_iff.
  tauto.
Qed.

Lemma win_rate_no_winner trades :
  winning_trades (closed_trades trades) = [] → closed_trades trades ≠ [] →
  win_rate trades = Float (S754_zero false).
Proof.
  unfold win_rate. intros -> Hclosed.
  by destruct (closed_trades trades).
Qed.

(** One winning trade of three closed ones: the win rate is the float
    that prints as 33.33333333333333 (in hexadecimal 0x1.0aaaaaaaaaaaap+5),
    which is a little less than 100/3. *)
Example win_rate_one_of_three :
  let trades :=
    [ mkTrade 1 7 "AAPL" 20 CLOSED 150 2 (Some 30%Q);
      mkTrade 2 7 "MSFT" 21 CLOSED 300 1 (Some (-5)%Q);
      mkTrade 3 7 "TSLA" 22 CLOSED 200 3 (Some 0%Q) ] in
  win_rate trades = Float (Prim2SF 0x1.0aaaaaaaaaaaap+5%float)
  ∧ win_rate trades = Float (S754_finite false 4691249611844266 (-47))
  ∧ number_value (win_rate trades) = Some (4691249611844266 # 140737488355328)%Q
  ∧ ((4691249611844266 # 140737488355328) < (100 # 3))%Q
  ∧ ((100 # 3) - (4691249611844266 # 140737488355328) < (1 # 100000000000000))%Q.
Proof.
  split; [by vm_compute|]. split; [by vm_compute|].
  split; [by vm_compute|]. split; by vm_compute.
Qed.

(** For every closed count up to 48 and every winning count within it, the
    model computes the float that the kernel's binary64 arithmetic gives for
    [w / c * 100]. *)
Example win_rate_agrees_with_kernel_floats :
  map (λ wc, py_mul_int (py_truediv (fst wc) (snd wc)) 100) (counts_up_to 48)
  = map (λ wc, kernel_rate (fst wc) (snd wc)) (counts_up_to 48).
Proof. by vm_compute. Qed.


(** ** Total P&L and total investment *)

Lemma pnl_values_set_status (f : Trade → Status) trades :
  pnl_values (map (λ t, set_status (f t) t) trades) = pnl_values trades.
Proof.
  unfold pnl_values. induction trades as [|t trades IH]; simpl; [done|].
  by rewrite IH.
Qed.

Lemma total_pnl_cons t trades :
  (total_pnl (t :: trades)
   == match pnl t with Some p => p | None => 0 end + total_pnl trades)%Q.
Proof.
  unfold total_pnl. rewrite !py_sum_sum_of. unfold pnl_values. simpl.
  destruct (pnl t); simpl; ring.
Qed.

(** C3.  Total P&L.  [total_pnl] is the sum of the pnl of every trade that
    has one, and 0 for no trades.  The status plays no part: a trade with a
    pnl adds it whether OPEN or CLOSED, and changing the statuses of the
    trades in any way leaves the total as it was. *)
Theorem total_pnl_ignores_status :
  total_pnl [] = 0%Q
  ∧ (∀ trades, (total_pnl trades == sum_of (pnl_values trades))%Q)
  ∧ (∀ t trades p, pnl t = Some p → (total_pnl (t :: trades) == p + total_pnl trades)%Q)
  ∧ (∀ t trades, pnl t = None → (total_pnl (t :: trades) == total_pnl trades)%Q)
  ∧ (∀ t trades p, status t = OPEN → pnl t = Some p →
       (total_pnl (t :: trades) == p + total_pnl trades)%Q)
  ∧ (∀ (f : Trade → Status) trades,
       total_pnl (map (λ t, set_status (f t) t) trades) = total_pnl trades)
  ∧ (∀ uid m q db, ∃ ctx,
       trade_list (mkRequest (Authenticated uid) m q) db
         = (db, Ok (Render "journal/trade_list.html" (TradeListCtx ctx)))
       ∧ ctx_total_pnl ctx = total_pnl (ctx_trades ctx)
       ∧ (ctx_total_pnl ctx == total_pnl (user_trades uid db))%Q).
Proof.
  split; [reflexivity|].
  split; [intros; apply py_sum_sum_of|].
  split; [intros t trades p H; rewrite total_pnl_cons, H; reflexivity|].
  split; [intros t trades H; rewrite total_pnl_cons, H; ring|].
  split; [intros t trades p _ H; rewrite total_pnl_cons, H; reflexivity|].
  split; [intros f trades; unfold total_pnl; by rewrite pnl_values_set_status|].
  intros uid m q db.
  destruct (trade_list_run uid m q db) as (best & _ & Hrun).
  exists (run_context uid q db best). split; [exact Hrun|]. split; [done|].
  apply total_pnl_perm, sort_rows_perm.
Qed.

(** C5.  Total investment.  [total_investment] is the sum of
    [entry_price * quantity] over all trades, open and closed alike, and it
    does not depend on their order: two permutations of the same trades give
    the same total, so two requests of one user that differ only in
    [sort_by] and [order] report the same total investment. *)
Theorem total_investment_order_invariant :
  (∀ trades,
     (total_investment trades
      == sum_of (map (λ t, entry_price t * quantity t) trades))%Q)
  ∧ (∀ t trades,
       (total_investment (t :: trades)
        == entry_price t * quantity t + total_investment trades)%Q)
  ∧ (∀ trades trades', Permutation trades trades' →
       (total_investment trades == total_investment trades')%Q)
  ∧ (∀ uid m1 q1 m2 q2 db, ∃ ctx1 ctx2,
       trade_list (mkRequest (Authenticated uid) m1 q1) db
         = (db, Ok (Render "journal/trade_list.html" (TradeListCtx ctx1)))
       ∧ trade_list (mkRequest (Authenticated uid) m2 q2) db
         = (db, Ok (Render "journal/trade_list.html" (TradeListCtx ctx2)))
       ∧ ctx_total_investment ctx1 = total_investment (ctx_trades ctx1)
       ∧ Permutation (ctx_trades ctx1) (ctx_trades ctx2)
       ∧ (ctx_total_investment ctx1 == ctx_total_investment ctx2)%Q).
Proof.
  split; [intros; apply py_sum_sum_of|].
  split.
  { intros t trades. unfold total_investment. rewrite !py_sum_sum_of. reflexivity. }
  split; [apply total_investment_perm|].
  intros uid m1 q1 m2 q2 db.
  destruct (trade_list_run uid m1 q1 db) as (best1 & _ & Hrun1).
  destruct (trade_list_run uid m2 q2 db) as (best2 & _ & Hrun2).
  exists (run_context uid q1 db best1), (run_context uid q2 db best2).
  split; [exact Hrun1|]. split; [exact Hrun2|]. split; [done|].
  assert (Permutation (ctx_trades (run_context uid q1 db best1))
                      (ctx_trades (run_context uid q2 db best2))) as Hperm.
  { cbn [run_context ctx_trades]. rewrite !sort_rows_perm. done. }
  split; [exact Hperm|]. by apply total_investment_perm.
Qed.

(** ** Best performer *)

Lemma filter_app_cons_inv {A} (f : A → bool) (l : list A) : ∀ l1 b l2,
  List.filter f l = l1 ++ b :: l2 →
  ∃ before after,
    l = before ++ b :: after
    ∧ List.filter f before = l1 ∧ List.filter f after = l2.
Proof.
  induction l as [|x l IH]; intros l1 b l2 H; simpl in H.
  - by destruct l1.
  - destruct (f x) eqn:Hfx.
    + destruct l1 as [|y l1]; simpl in H; injection H as <- H.
      * by exists [], l.
      * destruct (IH _ _ _ H) as (before & after & -> & <- & <-).
        exists (x :: before), after. simpl. by rewrite Hfx.
    + destruct (IH _ _ _ H) as (before & after & -> & <- & <-).
      exists (x :: before), after. simpl. by rewrite Hfx.
Qed.

Lemma candidates_nil trades :
  candidates trades = [] ↔ ∀ t, In t trades → status t = CLOSED → pnl t = None.
Proof.
  split.
  - intros Hnil t Hin Hst. destruct (pnl t) as [p|] eqn:Hp; [|done].
    assert (In t (candidates trades)) as Hc.
    { apply In_candidates. rewrite Hp. eauto. }
    rewrite Hnil in Hc. done.
  - intros Hall. destruct (candidates trades) as [|t l] eqn:Hc; [done|].
    assert (In t (candidates trades)) as Hin by (rewrite Hc; by left).
    apply In_candidates in Hin as (Hin & Hst & [p Hp]).
    rewrite (Hall t Hin Hst) in Hp. done.
Qed.

Lemma best_performer_absent trades :
  (∀ t, In t trades → status t = CLOSED → pnl t = None) →
  best_performer trades = Ok None.
Proof.
  intros H. apply candidates_nil in H.
  pose proof (best_performer_first trades) as Hb. by rewrite H in Hb.
Qed.

(** When some closed trade has a pnl, the best performer is a closed trade
    whose pnl no closed trade exceeds, and no closed trade listed before it
    reaches. *)
Lemma best_performer_present trades :
  (∃ t, In t trades ∧ status t = CLOSED ∧ is_Some (pnl t)) →
  ∃ b pb before after,
    best_performer trades = Ok (Some b)
    ∧ trades = before ++ b :: after
    ∧ status b = CLOSED
    ∧ pnl b = Some pb
    ∧ (∀ t p, In t trades → status t = CLOSED → pnl t = Some p → (p <= pb)%Q)
    ∧ (∀ t p, In t before → status t = CLOSED → pnl t = Some p → (p < pb)%Q).
Proof.
  intros (t0 & Hin0 & Hst0 & Hp0).
  assert (In t0 (candidates trades)) as Hc0 by (by apply In_candidates).
  pose proof (best_performer_first trades) as Hb.
  destruct (candidates trades) as [|c cs] eqn:Hcands; [done|].
  destruct Hb as (b & l1 & l2 & Hrun & Hsplit & [pb Hpb] & Hl1 & Hl2).
  assert (In b (candidates trades)) as Hbin.
  { rewrite Hcands, Hsplit. apply in_elt. }
  apply In_candidates in Hbin as (Hbin & Hbst & _).
  pose proof Hsplit as Hsplit'. rewrite <- Hcands in Hsplit'.
  unfold candidates in Hsplit'.
  apply filter_app_cons_inv in Hsplit' as (cb & ca & Hclosed & Hcb & Hca).
  unfold closed_trades in Hclosed.
  apply filter_app_cons_inv in Hclosed as (before & after & Htr & Hbefore & Hafter).
  exists b, pb, before, after.
  split; [done|]. split; [done|]. split; [done|]. split; [done|].
  rewrite Hpb in Hl1, Hl2. split.
  - intros t p Hin Hst Hp.
    assert (In t (candidates trades)) as Hc.
    { apply In_candidates. rewrite Hp. eauto. }
    rewrite Hcands, Hsplit in Hc. apply in_app_or in Hc as [Hc|[<-|Hc]].
    + rewrite List.Forall_forall in Hl1. specialize (Hl1 t Hc).
      rewrite Hp in Hl1. by apply Qlt_le_weak.
    + rewrite Hpb in Hp. injection Hp as <-. apply Qle_refl.
    + rewrite List.Forall_forall in Hl2. specialize (Hl2 t Hc).
      by rewrite Hp in Hl2.
  - intros t p Hin Hst Hp.
    assert (In t l1) as Hc.
    { rewrite <- Hcb, <- Hbefore. apply filter_In. split.
      - apply filter_In. split; [done|]. by apply is_closed_CLOSED.
      - unfold has_pnl. by rewrite Hp. }
    rewrite List.Forall_forall in Hl1. specialize (Hl1 t Hc).
    by rewrite Hp in Hl1.
Qed.

(** C4.  Best performer.  When no closed trade has a pnl there is none.
    Otherwise it is a closed trade of the list whose pnl is at least the
    pnl of every closed trade, and it is the first such trade in the order
    of the list: every closed trade before it has a strictly smaller pnl.
    The computation never fails, and the view runs it on the rows in their
    sorted order. *)
Theorem best_performer_first_maximum :
  (∀ trades, ∃ r, best_performer trades = Ok r)
  ∧ (∀ trades,
       (∀ t, In t trades → status t = CLOSED → pnl t = None) →
       best_performer trades = Ok None)
  ∧ (∀ trades,
       (∃ t, In t trades ∧ status t = CLOSED ∧ is_Some (pnl t)) →
       ∃ b pb before after,
         best_performer trades = Ok (Some b)
         ∧ trades = before ++ b :: after
         ∧ status b = CLOSED
         ∧ pnl b = Some pb
         ∧ (∀ t p, In t trades → status t = CLOSED → pnl t = Some p → (p <= pb)%Q)
         ∧ (∀ t p, In t before → status t = CLOSED → pnl t = Some p → (p < pb)%Q))
  ∧ (∀ uid m q db, ∃ ctx,
       trade_list (mkRequest (Authenticated uid) m q) db
         = (db, Ok (Render "journal/trade_list.html" (TradeListCtx ctx)))
       ∧ best_performer (ctx_trades ctx) = Ok (ctx_best_performer ctx)).
Proof.
  split; [apply best_performer_total|].
  split; [apply best_performer_absent|].
  split; [apply best_performer_present|].
  intros uid m q db.
  destruct (trade_list_run uid m q db) as (best & Hbest & Hrun).
  by exists (run_context uid q db best).
Qed.

(** C9.  The best performer need not be a winner.  As soon as one closed
    trade has a pnl there is a best performer; when every closed pnl is
    negative or zero there is no winning trade, the win rate is the float
    0.0, and the best performer is a closed trade with the largest of these
    pnl, itself negative or zero. *)
Theorem best_performer_without_winner (trades : list Trade) :
  (∃ t, In t trades ∧ status t = CLOSED ∧ is_Some (pnl t)) →
  (∀ t p, In t trades → status t = CLOSED → pnl t = Some p → (p <= 0)%Q) →
  ∃ b pb,
    best_performer trades = Ok (Some b)
    ∧ In b trades
    ∧ status b = CLOSED
    ∧ pnl b = Some pb
    ∧ (pb <= 0)%Q
    ∧ (∀ t p, In t trades → status t = CLOSED → pnl t = Some p → (p <= pb)%Q)
    ∧ winning_trades (closed_trades trades) = []
    ∧ win_rate trades = Float (S754_zero false)
    ∧ number_value (win_rate trades) = Some 0%Q.
Proof.
  intros Hex Hneg.
  destruct (best_performer_present trades Hex)
    as (b & pb & before & after & Hrun & Hsplit & Hst & Hpb & Hmax & _).
  assert (In b trades) as Hin by (rewrite Hsplit; apply in_elt).
  assert (winning_trades (closed_trades trades) = []) as Hnone.
  { destruct (winning_trades (closed_trades trades)) as [|w ws] eqn:Hw; [done|].
    assert (In w (winning_trades (closed_trades trades))) as Hwin
      by (rewrite Hw; by left).
    apply In_winning_trades in Hwin as (Hwin & Hwst & p & Hp & _ & Hpos).
    exfalso. eapply Qlt_not_le; [exact Hpos|]. eauto. }
  exists b, pb.
  split; [exact Hrun|]. split; [exact Hin|]. split; [exact Hst|].
  split; [exact Hpb|]. split; [by eapply Hneg|]. split; [exact Hmax|].
  split; [exact Hnone|].
  assert (win_rate trades = Float (S754_zero false)) as Hrate.
  { apply win_rate_no_winner; [exact Hnone|].
    assert (In b (closed_trades trades)) as Hb by (by apply In_closed_trades).
    intros Hnil. by rewrite Hnil in Hb. }
  split; [exact Hrate|]. by rewrite Hrate.
Qed.

(** Two closed losing trades and an open one: the smaller loss is the best
    performer. *)
Lemma best_performer_without_winner_witness :
  ∃ b pb,
    best_performer
      [ mkTrade 1 7 "AAPL" 20 CLOSED 150 2 (Some (-20)%Q);
        mkTrade 2 7 "MSFT" 21 CLOSED 300 1 (Some (-5)%Q);
        mkTrade 3 7 "TSLA" 22 OPEN 200 3 None ] = Ok (Some b)
    ∧ In b [ mkTrade 1 7 "AAPL" 20 CLOSED 150 2 (Some (-20)%Q);
             mkTrade 2 7 "MSFT" 21 CLOSED 300 1 (Some (-5)%Q);
             mkTrade 3 7 "TSLA" 22 OPEN 200 3 None ]
    ∧ status b = CLOSED
    ∧ pnl b = Some pb
    ∧ (pb <= 0)%Q
    ∧ (∀ t p,
         In t [ mkTrade 1 7 "AAPL" 20 CLOSED 150 2 (Some (-20)%Q);
                mkTrade 2 7 "MSFT" 21 CLOSED 300 1 (Some (-5)%Q);
                mkTrade 3 7 "TSLA" 22 OPEN 200 3 None ] →
         status t = CLOSED → pnl t = Some p → (p <= pb)%Q)
    ∧ winning_trades
        (closed_trades
           [ mkTrade 1 7 "AAPL" 20 CLOSED 150 2 (Some (-20)%Q);
             mkTrade 2 7 "MSFT" 21 CLOSED 300 1 (Some (-5)%Q);
             mkTrade 3 7 "TSLA" 22 OPEN 200 3 None ]) = []
    ∧ win_rate
        [ mkTrade 1 7 "AAPL" 20 CLOSED 150 2 (Some (-20)%Q);
          mkTrade 2 7 "MSFT" 21 CLOSED 300 1 (Some (-5)%Q);
          mkTrade 3 7 "TSLA" 22 OPEN 200 3 None ] = Float (S754_zero false)
    ∧ number_value
        (win_rate
           [ mkTrade 1 7 "AAPL" 20 CLOSED 150 2 (Some (-20)%Q);
             mkTrade 2 7 "MSFT" 21 CLOSED 300 1 (Some (-5)%Q);
             mkTrade 3 7 "TSLA" 22 OPEN 200 3 None ]) = Some 0%Q.
Proof.
  apply best_performer_without_winner.
  - eexists. split; [left; reflexivity|]. split; [reflexivity|]. by eexists.
  - intros t p [<-|[<-|[<-|[]]]] Hst [= <-]; unfold Qle; simpl; lia.
Defined.

(** ** The two scenarios *)

Lemma sort_rows_three {A} (leb : A → A → bool) (a b c : A) :
  In (sort_rows leb [a; b; c])
     [[a; b; c]; [a; c; b]; [b; a; c]; [b; c; a]; [c; a; b]; [c; b; a]].
Proof.
  unfold sort_rows. simpl.
  destruct (leb b c); simpl; destruct (leb a b), (leb a c); simpl; tauto.
Qed.

Lemma trade_list_no_trades uid m q db :
  user_trades uid db = [] →
  ∃ ctx,
    trade_list (mkRequest (Authenticated uid) m q) db
      = (db, Ok (Render "journal/trade_list.html" (TradeListCtx ctx)))
    ∧ ctx_trades ctx = []
    ∧ ctx_total_pnl ctx = 0%Q
    ∧ ctx_total_investment ctx = 0%Q
    ∧ ctx_win_rate ctx = Int 0
    ∧ ctx_best_performer ctx = None.
Proof.
  intros Hnone.
  run_trade_list uid m q db best Hbest Hrun.
  revert Hbest. cbn [run_context ctx_trades ctx_total_pnl ctx_total_investment
    ctx_win_rate ctx_best_performer].
  rewrite Hnone. simpl. intros [= <-]. done.
Qed.

Section Scenario.
Variables (uid id1 id2 id3 : nat) (s1 s2 s3 : string) (d1 d2 d3 : Z).
Variables (e1 e2 e3 n1 n2 n3 : Q).

Let t1 := mkTrade id1 uid s1 d1 CLOSED e1 n1 (Some 100%Q).
Let t2 := mkTrade id2 uid s2 d2 CLOSED e2 n2 (Some (-20)%Q).
Let t3 := mkTrade id3 uid s3 d3 OPEN e3 n3 None.

Lemma fifty_value :
∃ v, number_value (Float (Prim2SF 50%float)) = Some v ∧ (v == 50)%Q.
Proof. exists (7036874417766400 # 140737488355328)%Q. split; by vm_compute. Qed.

Lemma scenario_any_order rows :
In rows [[t1; t2; t3]; [t1; t3; t2]; [t2; t1; t3];
         [t2; t3; t1]; [t3; t1; t2]; [t3; t2; t1]] →
total_pnl rows = 80%Q
∧ length (closed_trades rows) = 2%nat
∧ length (winning_trades (closed_trades rows)) = 1%nat
∧ win_rate rows = Float (Prim2SF 50%float)
∧ best_performer rows = Ok (Some t1).
Proof.
intros [<-|[<-|[<-|[<-|[<-|[<-|[]]]]]]];
  (split; [reflexivity|]); (split; [reflexivity|]); (split; [reflexivity|]);
  (split; [by vm_compute|reflexivity]).
Qed.

(** C7.  The two scenarios.  Three trades (CLOSED with pnl 100, CLOSED with
  pnl -20, OPEN without pnl) give total P&L 80, two closed trades, one
  winning trade, win rate 50.0 (the float, whose value is 50) and the
  pnl-100 trade as best performer,
  both computed on the list as given and as the view reports them under
  any [sort_by] and [order].  No trades give total P&L 0, total
  investment 0, win rate 0 (the int) and no best performer. *)
Theorem scenario_three_trades_and_none :
(total_pnl [t1; t2; t3] = 80%Q
 ∧ length (closed_trades [t1; t2; t3]) = 2%nat
 ∧ length (winning_trades (closed_trades [t1; t2; t3])) = 1%nat
 ∧ win_rate [t1; t2; t3] = Float (Prim2SF 50%float)
 ∧ (∃ v, number_value (win_rate [t1; t2; t3]) = Some v ∧ (v == 50)%Q)
 ∧ best_performer [t1; t2; t3] = Ok (Some t1))
∧ (∀ m q strategies images portfolios, ∃ ctx,
     trade_list (mkRequest (Authenticated uid) m q)
                (mkDatabase [t1; t2; t3] strategies images portfolios)
       = (mkDatabase [t1; t2; t3] strategies images portfolios,
          Ok (Render "journal/trade_list.html" (TradeListCtx ctx)))
     ∧ ctx_total_pnl ctx = 80%Q
     ∧ length (closed_trades (ctx_trades ctx)) = 2%nat
     ∧ length (winning_trades (closed_trades (ctx_trades ctx))) = 1%nat
     ∧ ctx_win_rate ctx = Float (Prim2SF 50%float)
     ∧ (∃ v, number_value (ctx_win_rate ctx) = Some v ∧ (v == 50)%Q)
     ∧ ctx_best_performer ctx = Some t1)
∧ (total_pnl [] = 0%Q
   ∧ total_investment [] = 0%Q
   ∧ win_rate [] = Int 0
   ∧ best_performer [] = Ok None)
∧ (∀ user m q db, user_trades user db = [] → ∃ ctx,
     trade_list (mkRequest (Authenticated user) m q) db
       = (db, Ok (Render "journal/trade_list.html" (TradeListCtx ctx)))
     ∧ ctx_trades ctx = []
     ∧ ctx_total_pnl ctx = 0%Q
     ∧ ctx_total_investment ctx = 0%Q
     ∧ ctx_win_rate ctx = Int 0
     ∧ ctx_best_performer ctx = None).
Proof.
split.
{ destruct (scenario_any_order [t1; t2; t3]) as (Hpnl & Hclosed & Hwin & Hrate & Hmax);
    [by left|].
  rewrite Hrate. pose proof fifty_value. done. }
split.
{ intros m q strategies images portfolios.
  set (db := mkDatabase [t1; t2; t3] strategies images portfolios).
  run_trade_list uid m q db best Hbest Hrun.
  revert Hbest.
  cbn [run_context ctx_trades ctx_total_pnl ctx_win_rate ctx_best_performer].
  assert (user_trades uid db = [t1; t2; t3]) as ->.
  { unfold user_trades, owned_by. simpl. by rewrite Nat.eqb_refl. }
  destruct (scenario_any_order _ (sort_rows_three
    (ordering_leb (spec_sort (QueryDict_get q "sort_by" "entry_date")
                             (QueryDict_get q "order" "desc"))) t1 t2 t3))
    as (Hpnl & Hclosed & Hwin & Hrate & Hmax).
  rewrite Hmax, Hrate. intros [= <-]. pose proof fifty_value. done. }
split; [done|].
apply trade_list_no_trades.
Qed.

End Scenario.

(** ** A view that does write *)

(** Unlike [trade_list], [trade_delete] on a POST changes the database: the
    state threaded through a view is not a constant. *)
Lemma trade_delete_removes_row :
  let t := mkTrade 1 7 "AAPL" 20 CLOSED 150 2 (Some 100%Q) in
  let db := mkDatabase [t] [] [mkTradeImage 1 1 "chart.png" "entry" 30] ∅ in
  trade_delete 1 (mkRequest (Authenticated 7) "POST" []) db
  = (mkDatabase [] [] [] ∅, Ok (Redirect "trade_list")).
Proof. reflexivity. Qed.

(** * Properties of the other views *)

(** ** Looking rows up *)

Lemma owned_trade_Some pk uid db t :
  owned_trade pk uid db = Some t →
  In t (trade_table db) ∧ trade_id t = pk ∧ trade_user t = uid.
Proof.
  unfold owned_trade, owned_by. intros H. apply find_some in H as [Hin Hb].
  apply andb_prop in Hb as [H1 H2].
  apply Nat.eqb_eq in H1, H2. done.
Qed.

Lemma owned_trade_None pk uid db :
  owned_trade pk uid db = None →
  ∀ t, In t (trade_table db) → trade_id t = pk → trade_user t ≠ uid.
Proof.
  unfold owned_trade, owned_by. intros H t Hin Hid Hu.
  apply (find_none _ _ H) in Hin. rewrite Hid, Hu, !Nat.eqb_refl in Hin. done.
Qed.

Lemma image_of_trade_Some img_id pk db i :
  image_of_trade img_id pk db = Some i →
  In i (image_table db) ∧ image_id i = img_id ∧ image_trade i = pk.
Proof.
  unfold image_of_trade. intros H. apply find_some in H as [Hin Hb].
  apply andb_prop in Hb as [H1 H2].
  apply Nat.eqb_eq in H1, H2. done.
Qed.

Lemma image_of_trade_None img_id pk db :
  image_of_trade img_id pk db = None →
  ∀ i, In i (image_table db) → image_id i = img_id → image_trade i ≠ pk.
Proof.
  unfold image_of_trade. intros H i Hin Hid Hpk.
  apply (find_none _ _ H) in Hin. rewrite Hid, Hpk, !Nat.eqb_refl in Hin. done.
Qed.

Lemma get_trade_or_404_run pk uid db :
  get_trade_or_404 pk (Authenticated uid) db
  = (db, match owned_trade pk uid db with
         | Some t => Ok t
         | None => Raise Http404
         end).
Proof.
  unfold get_trade_or_404, owned_trade, mbind, View_bind, read_db. simpl.
  by destruct (List.find _ _).
Qed.

Lemma get_image_or_404_run img_id t db :
  get_image_or_404 img_id t db
  = (db, match image_of_trade img_id (trade_id t) db with
         | Some i => Ok i
         | None => Raise Http404
         end).
Proof.
  unfold get_image_or_404, image_of_trade, mbind, View_bind, read_db. simpl.
  by destruct (List.find _ _).
Qed.

(** ** Removing one row from a table with unique keys *)

Section RemoveByKey.
Context {A : Type} (key : A → nat).

Lemma filter_other_keys_perm (x : A) (l : list A) :
  NoDup (map key l) → In x l →
  Permutation (x :: List.filter (λ y, negb (Nat.eqb (key y) (key x))) l) l.
Proof.
  induction l as [|y l IH]; intros Hnd Hin; [done|].
  simpl in Hnd. apply NoDup_cons in Hnd as [Hy Hnd].
  destruct Hin as [->|Hin]; simpl.
  - rewrite Nat.eqb_refl. simpl. constructor.
    rewrite forallb_filter_id; [done|].
    apply forallb_forall. intros z Hz. apply negb_true_iff, Nat.eqb_neq.
    intros Heq. apply Hy. rewrite <- Heq. apply list_elem_of_In. by apply in_map.
  - destruct (Nat.eqb_spec (key y) (key x)) as [Heq|Hne]; simpl.
    + exfalso. apply Hy. rewrite Heq. apply list_elem_of_In. by apply in_map.
    + rewrite perm_swap. constructor. by apply IH.
Qed.

Lemma filter_keys_NoDup (f : A → bool) (l : list A) :
  NoDup (map key l) → NoDup (map key (List.filter f l)).
Proof.
  induction l as [|y l IH]; intros Hnd; [done|].
  simpl in Hnd. apply NoDup_cons in Hnd as [Hy Hnd]. simpl.
  destruct (f y); simpl; [|by apply IH].
  apply NoDup_cons. split; [|by apply IH].
  intros Hin. apply Hy. apply list_elem_of_In in Hin. apply list_elem_of_In.
  apply in_map_iff in Hin as (z & Hz & Hin). apply filter_In in Hin as [Hin _].
  rewrite <- Hz. by apply in_map.
Qed.

Lemma unique_key_eq (x y : A) (l : list A) :
  NoDup (map key l) → In x l → In y l → key x = key y → x = y.
Proof.
  induction l as [|z l IH]; intros Hnd Hx Hy Heq; [done|].
  simpl in Hnd. apply NoDup_cons in Hnd as [Hz Hnd].
  destruct Hx as [->|Hx], Hy as [->|Hy]; [done| | |by apply IH].
  - exfalso. apply Hz. rewrite Heq. apply list_elem_of_In. by apply in_map.
  - exfalso. apply Hz. rewrite <- Heq. apply list_elem_of_In. by apply in_map.
Qed.
End RemoveByKey.

Lemma filter_filter_absorb {A} (f g : A → bool) (l : list A) :
  (∀ x, In x l → f x = true → g x = true) →
  List.filter f (List.filter g l) = List.filter f l.
Proof.
  induction l as [|x l IH]; intros H; [done|]. simpl.
  destruct (g x) eqn:Hg; simpl.
  - destruct (f x); [f_equal|]; apply IH; intros; apply H; auto; by right.
  - destruct (f x) eqn:Hf.
    + rewrite (H x) in Hg; [done|by left|done].
    + apply IH. intros; apply H; auto; by right.
Qed.

(** ** Running the other views *)

Lemma trade_detail_run pk uid m q db :
  trade_detail pk (mkRequest (Authenticated uid) m q) db
  = (db, match owned_trade pk uid db with
         | Some t => Ok (Render "journal/trade_detail.html" (TradeCtx t))
         | None => Raise Http404
         end).
Proof.
  unfold trade_detail, login_required. cbn [user].
  unfold mbind, View_bind. rewrite get_trade_or_404_run.
  by destruct (owned_trade pk uid db).
Qed.

Lemma trade_delete_run pk uid m q db :
  trade_delete pk (mkRequest (Authenticated uid) m q) db
  = match owned_trade pk uid db with
    | None => (db, Raise Http404)
    | Some t =>
        if String.eqb m "POST" then (without_trade pk db, Ok (Redirect "trade_list"))
        else (db, Ok (Render "journal/trade_confirm_delete.html" (TradeCtx t)))
    end.
Proof.
  unfold trade_delete, login_required. cbn [user method].
  unfold mbind, View_bind. rewrite get_trade_or_404_run.
  destruct (owned_trade pk uid db) as [t|] eqn:Hown; [|done].
  apply owned_trade_Some in Hown as (_ & <- & _).
  by destruct (String.eqb m "POST").
Qed.

Lemma delete_trade_image_run pk img_id uid m q db :
  delete_trade_image pk img_id (mkRequest (Authenticated uid) m q) db
  = if String.eqb m "DELETE" then
      match owned_trade pk uid db with
      | None => (db, Raise Http404)
      | Some _ =>
          match image_of_trade img_id pk db with
          | None => (db, Raise Http404)
          | Some _ => (without_image img_id db, Ok (JsonResponse image_deleted))
          end
      end
    else (db, Ok (HttpResponseNotAllowed ["DELETE"])).
Proof.
  unfold delete_trade_image, login_required_r, require_http_methods.
  cbn [user method existsb]. rewrite orb_false_r.
  destruct (String.eqb m "DELETE"); [|done].
  unfold mbind, View_bind. rewrite get_trade_or_404_run.
  destruct (owned_trade pk uid db) as [t|] eqn:Hown; [|done].
  apply owned_trade_Some in Hown as (_ & <- & _).
  rewrite get_image_or_404_run.
  destruct (image_of_trade img_id (trade_id t) db) as [i|] eqn:Himg; [|done].
  apply image_of_trade_Some in Himg as (_ & <- & _). done.
Qed.

Lemma trade_images_run image_url strftime pk uid m q db :
  trade_images image_url strftime pk (mkRequest (Authenticated uid) m q) db
  = (db, match owned_trade pk uid db with
         | None => Raise Http404
         | Some _ =>
             Ok (JsonResponse (JObj [("images",
                   JList (map (image_data image_url strftime)
                            (sort_rows created_at_desc (images_of pk db))))]))
         end).
Proof.
  unfold trade_images, login_required_r. cbn [user].
  unfold mbind, View_bind. rewrite get_trade_or_404_run.
  destruct (owned_trade pk uid db) as [t|] eqn:Hown; [|done].
  apply owned_trade_Some in Hown as (_ & <- & _). done.
Qed.

Lemma strategy_list_run uid m q db :
  strategy_list (mkRequest (Authenticated uid) m q) db
  = (db, Ok (StrategyPage "journal/strategy_list.html"
               (List.filter (λ s, Nat.eqb (strategy_user s) uid) (strategy_table db)))).
Proof. reflexivity. Qed.

Lemma owned_trade_unique pk uid db t :
  unique_keys db → In t (trade_table db) → trade_id t = pk → trade_user t = uid →
  owned_trade pk uid db = Some t.
Proof.
  intros [Hnd _] Hin Hid Hu.
  destruct (owned_trade pk uid db) as [t'|] eqn:Hown.
  - apply owned_trade_Some in Hown as (Hin' & Hid' & _). f_equal.
    apply (unique_key_eq trade_id t' t (trade_table db)); congruence.
  - exfalso. by apply (owned_trade_None _ _ _ Hown t).
Qed.

Lemma image_of_trade_unique img_id pk db i :
  unique_keys db → In i (image_table db) → image_id i = img_id → image_trade i = pk →
  image_of_trade img_id pk db = Some i.
Proof.
  intros [_ Hnd] Hin Hid Hpk.
  destruct (image_of_trade img_id pk db) as [i'|] eqn:Himg.
  - apply image_of_trade_Some in Himg as (Hin' & Hid' & _). f_equal.
    apply (unique_key_eq image_id i' i (image_table db)); congruence.
  - exfalso. by apply (image_of_trade_None _ _ _ Himg i).
Qed.

Lemma owned_trade_without_trade pk uid db : owned_trade pk uid (without_trade pk db) = None.
Proof.
  unfold owned_trade, without_trade. cbn [trade_table].
  destruct (List.find _ _) as [t|] eqn:Hfind; [|done].
  apply find_some in Hfind as [Hin Hb]. apply filter_In in Hin as [_ Hne].
  apply andb_prop in Hb as [Heq _]. rewrite Heq in Hne. done.
Qed.

(** ** Detail page *)

(** X1.  A logged-in user sees on the detail page a stored trade with the
    requested key that is the user's own; when there is no such trade the
    view raises 404, also when the key exists but belongs to someone else.
    The database is untouched either way. *)
Theorem trade_detail_only_own (pk uid : nat) (m : string) (q : QueryDict) (db : Database) :
  (∃ t,
     trade_detail pk (mkRequest (Authenticated uid) m q) db
       = (db, Ok (Render "journal/trade_detail.html" (TradeCtx t)))
     ∧ In t (trade_table db) ∧ trade_id t = pk ∧ trade_user t = uid)
  ∨ (trade_detail pk (mkRequest (Authenticated uid) m q) db = (db, Raise Http404)
     ∧ ∀ t, In t (trade_table db) → trade_id t = pk → trade_user t ≠ uid).
Proof.
  rewrite trade_detail_run.
  destruct (owned_trade pk uid db) as [t|] eqn:Hown.
  - left. exists t. split; [done|]. by apply owned_trade_Some in Hown.
  - right. split; [done|]. by apply owned_trade_None.
Qed.

(** ** Deleting a trade *)

(** X2.  [trade_delete] changes the database in one case only: a POST by a
    logged-in user who owns a trade with the key.  An anonymous request is
    sent to the login page; a key the user does not own gives 404 whatever
    the method; any method other than POST shows the confirmation page for
    the trade and deletes nothing. *)
Theorem trade_delete_only_owner_post (pk : nat) (request : HttpRequest) (db : Database) :
  match user request with
  | AnonymousUser => trade_delete pk request db = (db, Ok RedirectToLogin)
  | Authenticated uid =>
      (trade_delete pk request db = (db, Raise Http404)
       ∧ ∀ t, In t (trade_table db) → trade_id t = pk → trade_user t ≠ uid)
      ∨ ∃ t,
          In t (trade_table db) ∧ trade_id t = pk ∧ trade_user t = uid
          ∧ ((method request ≠ "POST"
              ∧ trade_delete pk request db
                = (db, Ok (Render "journal/trade_confirm_delete.html" (TradeCtx t))))
             ∨ (method request = "POST"
                ∧ trade_delete pk request db
                  = (without_trade pk db, Ok (Redirect "trade_list"))))
  end.
Proof.
  destruct request as [[|uid] m q]; cbn [user method]; [done|].
  rewrite trade_delete_run.
  destruct (owned_trade pk uid db) as [t|] eqn:Hown.
  - right. exists t. apply owned_trade_Some in Hown as (Hin & Hid & Hu).
    split; [done|]. split; [done|]. split; [done|].
    destruct (String.eqb_spec m "POST"); [by right|by left].
  - left. split; [done|]. by apply owned_trade_None.
Qed.

(** X3.  In a database with unique keys, a POST to [trade_delete] by the owner
    removes exactly that trade: the other trades stay (so every other
    user's trades are as before), the images of the trade go and all other
    images stay, strategies and portfolios are untouched, keys stay unique,
    and the key is gone: asking for the trade again, or deleting it again,
    gives 404 and changes nothing. *)
Theorem trade_delete_removes_exactly (pk uid : nat) (q : QueryDict) (db : Database) (t : Trade) :
  unique_keys db → In t (trade_table db) → trade_id t = pk → trade_user t = uid →
  ∃ db',
    trade_delete pk (mkRequest (Authenticated uid) "POST" q) db
      = (db', Ok (Redirect "trade_list"))
    ∧ Permutation (t :: trade_table db') (trade_table db)
    ∧ (∀ other, other ≠ uid → user_trades other db' = user_trades other db)
    ∧ (∀ i, In i (image_table db') ↔ In i (image_table db) ∧ image_trade i ≠ pk)
    ∧ strategy_table db' = strategy_table db
    ∧ portfolio_table db' = portfolio_table db
    ∧ unique_keys db'
    ∧ (∀ m' q', trade_detail pk (mkRequest (Authenticated uid) m' q') db'
                = (db', Raise Http404))
    ∧ (∀ m' q', trade_delete pk (mkRequest (Authenticated uid) m' q') db'
                = (db', Raise Http404)).
Proof.
  intros Huniq Hin Hid Hu. exists (without_trade pk db).
  rewrite trade_delete_run, (owned_trade_unique pk uid db t) by done.
  split; [done|]. destruct Huniq as [Htr Him].
  split.
  { cbn [without_trade trade_table]. rewrite <- Hid.
    by apply (filter_other_keys_perm trade_id). }
  split.
  { intros other Hother. unfold user_trades. cbn [without_trade trade_table].
    apply filter_filter_absorb. intros x Hx Hown.
    apply negb_true_iff, Nat.eqb_neq. intros Hxid.
    assert (x = t) as -> by (apply (unique_key_eq trade_id x t (trade_table db)); congruence).
    unfold owned_by in Hown. apply Nat.eqb_eq in Hown. congruence. }
  split.
  { intros i. cbn [without_trade image_table].
    by rewrite filter_In, negb_true_iff, Nat.eqb_neq. }
  split; [done|]. split; [done|].
  split.
  { split; cbn [without_trade trade_table image_table]; by apply filter_keys_NoDup. }
  split.
  - intros m' q'. by rewrite trade_detail_run, owned_trade_without_trade.
  - intros m' q'. by rewrite trade_delete_run, owned_trade_without_trade.
Qed.

Lemma example_db_unique_keys : unique_keys example_db.
Proof. split; apply (bool_decide_unpack _); by vm_compute. Defined.

Lemma trade_delete_removes_exactly_witness :
  ∃ db',
    trade_delete 1 (mkRequest (Authenticated 7) "POST" []) example_db
      = (db', Ok (Redirect "trade_list"))
    ∧ Permutation (mkTrade 1 7 "MSFT" 20 CLOSED 150 2 (Some 100%Q) :: trade_table db')
                  (trade_table example_db)
    ∧ (∀ other, other ≠ 7%nat → user_trades other db' = user_trades other example_db)
    ∧ (∀ i, In i (image_table db') ↔ In i (image_table example_db) ∧ image_trade i ≠ 1%nat)
    ∧ strategy_table db' = strategy_table example_db
    ∧ portfolio_table db' = portfolio_table example_db
    ∧ unique_keys db'
    ∧ (∀ m' q', trade_detail 1 (mkRequest (Authenticated 7) m' q') db'
                = (db', Raise Http404))
    ∧ (∀ m' q', trade_delete 1 (mkRequest (Authenticated 7) m' q') db'
                = (db', Raise Http404)).
Proof.
  apply (trade_delete_removes_exactly 1 7 [] example_db).
  - exact example_db_unique_keys.
  - simpl. by left.
  - reflexivity.
  - reflexivity.
Defined.

(** ** Deleting an image *)

(** X4.  [delete_trade_image] checks, in this order: that the user is logged in
    (else the login page, whatever the method), that the method is DELETE
    (else 405 listing DELETE, before any row is looked up), that the user
    owns the trade, and that the image hangs on that trade (else 404).
    Only when all four hold is the image deleted; in every other case the
    database stays as it was. *)
Theorem delete_trade_image_guards (pk img_id : nat) (request : HttpRequest) (db : Database) :
  match user request with
  | AnonymousUser => delete_trade_image pk img_id request db = (db, Ok LoginRedirect)
  | Authenticated uid =>
      (method request ≠ "DELETE"
       ∧ delete_trade_image pk img_id request db
         = (db, Ok (HttpResponseNotAllowed ["DELETE"])))
      ∨ (method request = "DELETE"
         ∧ (∀ t, In t (trade_table db) → trade_id t = pk → trade_user t ≠ uid)
         ∧ delete_trade_image pk img_id request db = (db, Raise Http404))
      ∨ (method request = "DELETE"
         ∧ (∀ i, In i (image_table db) → image_id i = img_id → image_trade i ≠ pk)
         ∧ delete_trade_image pk img_id request db = (db, Raise Http404))
      ∨ (method request = "DELETE"
         ∧ (∃ t, In t (trade_table db) ∧ trade_id t = pk ∧ trade_user t = uid)
         ∧ (∃ i, In i (image_table db) ∧ image_id i = img_id ∧ image_trade i = pk)
         ∧ delete_trade_image pk img_id request db
           = (without_image img_id db, Ok (JsonResponse image_deleted)))
  end.
Proof.
  destruct request as [[|uid] m q]; cbn [user method]; [done|].
  rewrite delete_trade_image_run.
  destruct (String.eqb_spec m "DELETE") as [->|Hm]; [|by left].
  right. destruct (owned_trade pk uid db) as [t|] eqn:Hown.
  - right. destruct (image_of_trade img_id pk db) as [i|] eqn:Himg.
    + right. split; [done|].
      split; [exists t; by apply owned_trade_Some in Hown|].
      split; [exists i; by apply image_of_trade_Some in Himg|done].
    + left. split; [done|]. split; [by apply image_of_trade_None|done].
  - left. split; [done|]. split; [by apply owned_trade_None|done].
Qed.

(** X5.  In a database with unique keys, a DELETE by the owner of the trade
    removes exactly the named image: every other image stays, trades,
    strategies and portfolios are untouched, keys stay unique, and the
    image list of the trade served afterwards holds the images the trade
    had before except the deleted one. *)
Theorem delete_trade_image_removes_exactly
    (pk img_id uid : nat) (q : QueryDict) (db : Database) (t : Trade) (i : TradeImage) :
  unique_keys db →
  In t (trade_table db) → trade_id t = pk → trade_user t = uid →
  In i (image_table db) → image_id i = img_id → image_trade i = pk →
  ∃ db',
    delete_trade_image pk img_id (mkRequest (Authenticated uid) "DELETE" q) db
      = (db', Ok (JsonResponse image_deleted))
    ∧ Permutation (i :: image_table db') (image_table db)
    ∧ trade_table db' = trade_table db
    ∧ strategy_table db' = strategy_table db
    ∧ portfolio_table db' = portfolio_table db
    ∧ unique_keys db'
    ∧ (∀ image_url strftime m' q', ∃ images,
         trade_images image_url strftime pk (mkRequest (Authenticated uid) m' q') db'
           = (db', Ok (JsonResponse (JObj [("images",
                         JList (map (image_data image_url strftime) images))])))
         ∧ ∀ j, In j images ↔ In j (images_of pk db) ∧ j ≠ i).
Proof.
  intros Huniq Hin Hid Hu Hiin Hiid Hipk. exists (without_image img_id db).
  rewrite delete_trade_image_run. cbn [String.eqb Ascii.eqb Bool.eqb].
  rewrite (owned_trade_unique pk uid db t), (image_of_trade_unique img_id pk db i) by done.
  split; [done|]. pose proof Huniq as [Htr Him].
  split.
  { cbn [without_image image_table]. rewrite <- Hiid.
    by apply (filter_other_keys_perm image_id). }
  split; [done|]. split; [done|]. split; [done|].
  split.
  { split; cbn [without_image trade_table image_table]; [done|].
    by apply filter_keys_NoDup. }
  intros image_url strftime m' q'.
  exists (sort_rows created_at_desc (images_of pk (without_image img_id db))).
  rewrite trade_images_run.
  assert (owned_trade pk uid (without_image img_id db) = Some t) as ->.
  { unfold owned_trade. cbn [without_image trade_table].
    apply (owned_trade_unique pk uid db t); done. }
  split; [done|]. intros j.
  rewrite (Permutation_in' (eq_refl j) (sort_rows_perm created_at_desc _)).
  unfold images_of. cbn [without_image image_table].
  rewrite !filter_In, negb_true_iff, Nat.eqb_neq. split.
  - intros [[Hj Hne] Hpk]. split; [done|]. intros ->. done.
  - intros [[Hj Hpk] Hne]. split; [|done]. split; [done|].
    intros Hjid. apply Hne.
    apply (unique_key_eq image_id j i (image_table db)); congruence.
Qed.

Lemma delete_trade_image_removes_exactly_witness :
  ∃ db',
    delete_trade_image 1 1 (mkRequest (Authenticated 7) "DELETE" []) example_db
      = (db', Ok (JsonResponse image_deleted))
    ∧ Permutation (mkTradeImage 1 1 "chart.png" "entry" 21 :: image_table db')
                  (image_table example_db)
    ∧ trade_table db' = trade_table example_db
    ∧ strategy_table db' = strategy_table example_db
    ∧ portfolio_table db' = portfolio_table example_db
    ∧ unique_keys db'
    ∧ (∀ image_url strftime m' q', ∃ images,
         trade_images image_url strftime 1 (mkRequest (Authenticated 7) m' q') db'
           = (db', Ok (JsonResponse (JObj [("images",
                         JList (map (image_data image_url strftime) images))])))
         ∧ ∀ j, In j images
                ↔ In j (images_of 1 example_db)
                  ∧ j ≠ mkTradeImage 1 1 "chart.png" "entry" 21).
Proof.
  apply (delete_trade_image_removes_exactly 1 1 7 [] example_db
           (mkTrade 1 7 "MSFT" 20 CLOSED 150 2 (Some 100%Q))).
  - exact example_db_unique_keys.
  - simpl. by left.
  - reflexivity.
  - reflexivity.
  - simpl. by left.
  - reflexivity.
  - reflexivity.
Defined.

(** ** Listing the images of a trade *)

Lemma created_at_desc_total a b : created_at_desc a b = true ∨ created_at_desc b a = true.
Proof. unfold created_at_desc. rewrite !Z.leb_le. lia. Qed.

Lemma created_at_desc_trans : Transitive (λ a b, created_at_desc a b = true).
Proof. intros a b c. unfold created_at_desc. rewrite !Z.leb_le. lia. Qed.

(** X6.  For the owner of the trade, [trade_images] answers with one JSON
    object per image of that trade and of no other, newest first, each
    carrying the image's id, URL, caption and formatted creation time; for
    anyone else it raises 404.  It never changes the database. *)
Theorem trade_images_newest_first
    (image_url : string → string) (strftime : string → Z → string)
    (pk uid : nat) (m : string) (q : QueryDict) (db : Database) :
  (∃ t images,
     In t (trade_table db) ∧ trade_id t = pk ∧ trade_user t = uid
     ∧ trade_images image_url strftime pk (mkRequest (Authenticated uid) m q) db
       = (db, Ok (JsonResponse (JObj [("images",
             JList (map (λ img,
                      JObj [("id", JNum (image_id img));
                            ("url", JStr (image_url (image_file img)));
                            ("caption", JStr (caption img));
                            ("created_at",
                             JStr (strftime "%b %d, %Y %I:%M %p" (created_at img)))])
                    images))])))
     ∧ Permutation images (images_of pk db)
     ∧ (∀ img, In img images ↔ In img (image_table db) ∧ image_trade img = pk)
     ∧ StronglySorted (λ a b, (created_at b <= created_at a)%Z) images)
  ∨ (trade_images image_url strftime pk (mkRequest (Authenticated uid) m q) db
       = (db, Raise Http404)
     ∧ ∀ t, In t (trade_table db) → trade_id t = pk → trade_user t ≠ uid).
Proof.
  rewrite trade_images_run.
  destruct (owned_trade pk uid db) as [t|] eqn:Hown.
  - left. exists t, (sort_rows created_at_desc (images_of pk db)).
    apply owned_trade_Some in Hown as (Hin & Hid & Hu).
    split; [done|]. split; [done|]. split; [done|]. split; [done|].
    split; [apply sort_rows_perm|]. split.
    + intros img.
      rewrite (Permutation_in' (eq_refl img) (sort_rows_perm created_at_desc _)).
      unfold images_of. by rewrite filter_In, Nat.eqb_eq.
    + eapply StronglySorted_weaken;
        [|apply Sorted_StronglySorted;
          [apply created_at_desc_trans
          |apply sort_rows_sorted, created_at_desc_total]].
      intros a b. unfold created_at_desc. apply Z.leb_le.
  - right. split; [done|]. by apply owned_trade_None.
Qed.

(** ** Strategies *)

(** X7.  [strategy_list] shows a logged-in user the stored strategies that are
    the user's own, all of them and no others, and leaves the database as
    it was; what it shows does not depend on any other
    table or on other users' strategies. *)
Theorem strategy_list_only_own (uid : nat) (m : string) (q : QueryDict) (db : Database) :
  ∃ strategies,
    strategy_list (mkRequest (Authenticated uid) m q) db
      = (db, Ok (StrategyPage "journal/strategy_list.html" strategies))
    ∧ (∀ s, In s strategies ↔ In s (strategy_table db) ∧ strategy_user s = uid)
    ∧ (∀ db2,
         List.filter (λ s, Nat.eqb (strategy_user s) uid) (strategy_table db2)
         = List.filter (λ s, Nat.eqb (strategy_user s) uid) (strategy_table db) →
         snd (strategy_list (mkRequest (Authenticated uid) m q) db2)
         = snd (strategy_list (mkRequest (Authenticated uid) m q) db)).
Proof.
  eexists. split; [apply strategy_list_run|].
  split; [intros s; by rewrite filter_In, Nat.eqb_eq|].
  intros db2 Heq. rewrite !strategy_list_run. simpl. by rewrite Heq.
Qed.

(** ** The listing depends on the user's own rows only *)

(** X8.  What [trade_list] answers to a logged-in user is determined by that
    user's trades and portfolio: two databases that agree on them give the
    same response, however they differ elsewhere (other users' trades and
    portfolios, strategies, images). *)
Theorem trade_list_own_rows_only (uid : nat) (m : string) (q : QueryDict) (db1 db2 : Database) :
  user_trades uid db1 = user_trades uid db2 →
  portfolio_table db1 !! uid = portfolio_table db2 !! uid →
  snd (trade_list (mkRequest (Authenticated uid) m q) db1)
  = snd (trade_list (mkRequest (Authenticated uid) m q) db2).
Proof.
  intros Htrades Hport.
  destruct (trade_list_run uid m q db1) as (best1 & Hbest1 & ->).
  destruct (trade_list_run uid m q db2) as (best2 & Hbest2 & ->).
  cbn [snd]. revert Hbest1 Hbest2. unfold run_context. cbn [ctx_trades].
  rewrite Htrades, Hport. intros -> [= ->]. done.
Qed.

Lemma trade_list_own_rows_only_witness :
  snd (trade_list (mkRequest (Authenticated 7) "GET" [("sort_by", "symbol")]) example_db)
  = snd (trade_list (mkRequest (Authenticated 7) "GET" [("sort_by", "symbol")])
           (without_trade 4 example_db)).
Proof.
  apply (trade_list_own_rows_only 7 "GET" [("sort_by", "symbol")]
           example_db (without_trade 4 example_db)).
  - reflexivity.
  - reflexivity.
Defined.

(** ** New keys *)

Lemma next_key_above keys k : In k keys → (k < next_key keys)%nat.
Proof.
  unfold next_key. induction keys as [|x keys IH]; simpl; [done|].
  intros [->|Hin]; [lia|]. specialize (IH Hin). lia.
Qed.

Lemma next_key_fresh keys : ¬ In (next_key keys) keys.
Proof. intros Hin. apply next_key_above in Hin. lia. Qed.

Lemma NoDup_snoc_fresh (keys : list nat) k : NoDup keys → ¬ In k keys → NoDup (keys ++ [k]).
Proof.
  intros Hnd Hk. apply NoDup_app. split; [done|]. split; [|apply NoDup_singleton].
  intros x Hx [->|[]]%list_elem_of_In. apply Hk. by apply list_elem_of_In.
Qed.

(** ** Running the form views *)

Section FormViewRuns.
Context `{Forms}.

Lemma trade_create_run uid m q db :
  trade_create (mkRequest (Authenticated uid) m q) db
  = if String.eqb m "POST" then
      let form := TradeForm (Authenticated uid)
                    (Some (POST (mkRequest (Authenticated uid) m q))) None in
      if is_valid form db then
        (add_trade (with_trade_id (next_key (map trade_id (trade_table db)))
                      (with_trade_user uid (trade_instance form))) db,
         Ok (RedirectTo "trade_list" None))
      else (db, Ok (FormPage "journal/trade_form.html" form "Log New Trade"))
    else (db, Ok (FormPage "journal/trade_form.html"
                    (TradeForm (Authenticated uid) None None) "Log New Trade")).
Proof.
  unfold trade_create, login_required_f. cbn [user method].
  destruct (String.eqb m "POST"); [|done]. cbn zeta.
  unfold mbind, View_bind, form_is_valid, read_db. cbn [mret View_ret].
  unfold mbind, View_bind.
  by destruct (is_valid _ db).
Qed.

Lemma strategy_create_run uid m q db :
  strategy_create (mkRequest (Authenticated uid) m q) db
  = if String.eqb m "POST" then
      let form := StrategyForm (Some (POST (mkRequest (Authenticated uid) m q))) in
      if is_valid form db then
        (add_strategy (with_strategy_id (next_key (map strategy_id (strategy_table db)))
                         (with_strategy_user uid (strategy_instance form))) db,
         Ok (RedirectTo "strategy_list" None))
      else (db, Ok (FormPage "journal/strategy_form.html" form "Create New Strategy"))
    else (db, Ok (FormPage "journal/strategy_form.html"
                    (StrategyForm None) "Create New Strategy")).
Proof.
  unfold strategy_create, login_required_f. cbn [user method].
  destruct (String.eqb m "POST"); [|done]. cbn zeta.
  unfold mbind, View_bind, form_is_valid, read_db. cbn [mret View_ret].
  unfold mbind, View_bind.
  by destruct (is_valid _ db).
Qed.

Lemma trade_update_run pk uid m q db :
  trade_update pk (mkRequest (Authenticated uid) m q) db
  = match owned_trade pk uid db with
    | None => (db, Raise Http404)
    | Some trade =>
        if String.eqb m "POST" then
          let form := TradeForm (Authenticated uid)
                        (Some (POST (mkRequest (Authenticated uid) m q))) (Some trade) in
          if is_valid form db then
            (replace_trade (trade_instance form) db,
             Ok (RedirectTo "trade_detail" (Some pk)))
          else (db, Ok (FormPage "journal/trade_form.html" form "Update Trade"))
        else (db, Ok (FormPage "journal/trade_form.html"
                        (TradeForm (Authenticated uid) None (Some trade)) "Update Trade"))
    end.
Proof.
  unfold trade_update, login_required_f. cbn [user method].
  unfold mbind at 1, View_bind at 1. rewrite get_trade_or_404_run.
  destruct (owned_trade pk uid db) as [trade|]; [|done].
  destruct (String.eqb m "POST"); [|done]. cbn zeta.
  unfold mbind, View_bind, form_is_valid, read_db. cbn [mret View_ret].
  unfold mbind, View_bind.
  by destruct (is_valid _ db).
Qed.

Lemma upload_trade_chart_run pk uid m q db :
  upload_trade_chart pk (mkRequest (Authenticated uid) m q) db
  = if String.eqb m "POST" then
      match owned_trade pk uid db with
      | None => (db, Raise Http404)
      | Some _ =>
          let form := TradeImageForm (POST (mkRequest (Authenticated uid) m q))
                        (FILES (mkRequest (Authenticated uid) m q)) in
          if is_valid form db then
            let saved := with_image_id (next_key (map image_id (image_table db)))
                           (with_image_trade pk (image_instance form)) in
            (add_image saved db,
             Ok (JsonResponse (JObj [
               ("success", JBool true);
               ("message", JStr "Chart/Image uploaded successfully!");
               ("image_id", JNum (image_id saved));
               ("image_url", JStr (storage_url (image_file saved)))])))
          else
            (db, Ok (JsonResponse (JObj [
               ("success", JBool false);
               ("message", JStr "Error uploading chart. Please try again.");
               ("errors", form_errors form)])))
      end
    else (db, Ok (HttpResponseNotAllowed ["POST"])).
Proof.
  unfold upload_trade_chart, login_required_r, require_http_methods.
  cbn [user method existsb]. rewrite orb_false_r.
  destruct (String.eqb m "POST") eqn:Hm; [|done].
  unfold mbind at 1, View_bind at 1. rewrite get_trade_or_404_run.
  destruct (owned_trade pk uid db) as [trade|] eqn:Hown; [|done].
  apply owned_trade_Some in Hown as (_ & <- & _). cbn zeta.
  unfold mbind, View_bind, form_is_valid, read_db. cbn [mret View_ret].
  unfold mbind, View_bind.
  by destruct (is_valid _ db).
Qed.

End FormViewRuns.

(** ** Creating a trade *)

Lemma user_trades_add_trade uid t db :
  user_trades uid (add_trade t db)
  = user_trades uid db ++ (if owned_by uid t then [t] else []).
Proof.
  unfold user_trades, add_trade. cbn [trade_table].
  rewrite List.filter_app. simpl. by destruct (owned_by uid t).
Qed.

Section TradeCreate.
Context {forms : Forms}.

(** X9.  [trade_create] writes in one case only, a POST whose form is valid, and
    then adds exactly one trade: it belongs to the requesting user whatever
    the form said about the owner, gets a key no stored trade has, and
    takes every other field from the form.  A POST with an invalid form
    shows the bound form again, any other method shows an empty form, and
    both leave the database as it was. *)
Theorem trade_create_sets_owner (uid : nat) (m : string) (q : QueryDict) (db : Database) :
  let request := mkRequest (Authenticated uid) m q in
  let form := TradeForm (Authenticated uid) (Some (POST request)) None in
  (m = "POST" ∧ is_valid form db = true
   ∧ ∃ t,
       trade_create request db = (add_trade t db, Ok (RedirectTo "trade_list" None))
       ∧ trade_user t = uid
       ∧ ¬ In (trade_id t) (map trade_id (trade_table db))
       ∧ t = with_trade_id (trade_id t) (with_trade_user uid (trade_instance form)))
  ∨ (m = "POST" ∧ is_valid form db = false
     ∧ trade_create request db
       = (db, Ok (FormPage "journal/trade_form.html" form "Log New Trade")))
  ∨ (m ≠ "POST"
     ∧ trade_create request db
       = (db, Ok (FormPage "journal/trade_form.html"
                    (TradeForm (Authenticated uid) None None) "Log New Trade"))).
Proof.
  intros request form. subst request form. rewrite trade_create_run.
  destruct (String.eqb_spec m "POST") as [->|Hm]; [|by right; right].
  cbn zeta.
  destruct (is_valid _ db) eqn:Hvalid; [left|by right; left].
  split; [done|]. split; [done|]. eexists. split; [reflexivity|].
  split; [done|]. split; [apply next_key_fresh|done].
Qed.

(** X10.  After a valid POST to [trade_create] the new trade is in the owner's
    listing, next to the trades listed before, and the total investment
    shown has grown by its [entry_price * quantity]; the listing of every
    other user is what it was, and keys stay unique. *)
Theorem trade_create_then_list (uid : nat) (q : QueryDict) (db : Database) :
  let request := mkRequest (Authenticated uid) "POST" q in
  is_valid (TradeForm (Authenticated uid) (Some (POST request)) None) db = true →
  ∃ t db',
    trade_create request db = (db', Ok (RedirectTo "trade_list" None))
    ∧ trade_user t = uid
    ∧ (∀ m' q', ∃ ctx ctx',
         trade_list (mkRequest (Authenticated uid) m' q') db
           = (db, Ok (Render "journal/trade_list.html" (TradeListCtx ctx)))
         ∧ trade_list (mkRequest (Authenticated uid) m' q') db'
           = (db', Ok (Render "journal/trade_list.html" (TradeListCtx ctx')))
         ∧ Permutation (ctx_trades ctx') (t :: ctx_trades ctx)
         ∧ (ctx_total_investment ctx'
            == ctx_total_investment ctx + entry_price t * quantity t)%Q)
    ∧ (∀ other m' q', other ≠ uid →
         snd (trade_list (mkRequest (Authenticated other) m' q') db')
         = snd (trade_list (mkRequest (Authenticated other) m' q') db))
    ∧ (unique_keys db → unique_keys db').
Proof.
  intros request Hvalid. subst request. rewrite trade_create_run.
  cbn [String.eqb Ascii.eqb Bool.eqb]. cbn zeta. rewrite Hvalid.
  set (t := with_trade_id _ _). exists t, (add_trade t db).
  split; [done|]. split; [done|].
  assert (user_trades uid (add_trade t db) = user_trades uid db ++ [t]) as Hmine.
  { rewrite user_trades_add_trade. unfold owned_by. simpl. by rewrite Nat.eqb_refl. }
  split.
  { intros m' q'.
    destruct (trade_list_run uid m' q' db) as (best & _ & Hrun).
    destruct (trade_list_run uid m' q' (add_trade t db)) as (best' & _ & Hrun').
    exists (run_context uid q' db best), (run_context uid q' (add_trade t db) best').
    split; [done|]. split; [done|].
    assert (Permutation (ctx_trades (run_context uid q' (add_trade t db) best'))
                        (t :: ctx_trades (run_context uid q' db best))) as Hperm.
    { cbn [run_context ctx_trades]. rewrite !sort_rows_perm, Hmine.
      by rewrite Permutation_app_comm. }
    split; [done|].
    change (ctx_total_investment (run_context uid q' (add_trade t db) best'))
      with (total_investment (ctx_trades (run_context uid q' (add_trade t db) best'))).
    rewrite (total_investment_perm _ _ Hperm).
    change (ctx_total_investment (run_context uid q' db best))
      with (total_investment (ctx_trades (run_context uid q' db best))).
    unfold total_investment. rewrite !py_sum_sum_of. simpl. ring. }
  split.
  { intros other m' q' Hother.
    assert (user_trades other (add_trade t db) = user_trades other db) as Hrows.
    { rewrite user_trades_add_trade. unfold owned_by. simpl.
      destruct (Nat.eqb_spec uid other); [congruence|]. by rewrite app_nil_r. }
    destruct (trade_list_run other m' q' (add_trade t db)) as (best1 & Hbest1 & ->).
    destruct (trade_list_run other m' q' db) as (best2 & Hbest2 & ->).
    cbn [snd]. revert Hbest1 Hbest2. unfold run_context. cbn [ctx_trades].
    rewrite Hrows. intros -> [= ->]. done. }
  intros [Htr Him]. split; [|done].
  cbn [add_trade trade_table]. rewrite map_app. simpl.
  apply NoDup_snoc_fresh; [done|apply next_key_fresh].
Qed.

End TradeCreate.

Lemma trade_create_then_list_witness :
  ∃ t db',
    @trade_create example_forms
        (mkRequest (Authenticated 7) "POST" [("name", "NVDA")]) example_db
      = (db', Ok (RedirectTo "trade_list" None))
    ∧ trade_user t = 7%nat
    ∧ (∀ m' q', ∃ ctx ctx',
         trade_list (mkRequest (Authenticated 7) m' q') example_db
           = (example_db, Ok (Render "journal/trade_list.html" (TradeListCtx ctx)))
         ∧ trade_list (mkRequest (Authenticated 7) m' q') db'
           = (db', Ok (Render "journal/trade_list.html" (TradeListCtx ctx')))
         ∧ Permutation (ctx_trades ctx') (t :: ctx_trades ctx)
         ∧ (ctx_total_investment ctx'
            == ctx_total_investment ctx + entry_price t * quantity t)%Q)
    ∧ (∀ other m' q', other ≠ 7%nat →
         snd (trade_list (mkRequest (Authenticated other) m' q') db')
         = snd (trade_list (mkRequest (Authenticated other) m' q') example_db))
    ∧ (unique_keys example_db → unique_keys db').
Proof.
  apply (@trade_create_then_list example_forms 7 [("name", "NVDA")] example_db).
  reflexivity.
Defined.

(** ** Creating a strategy *)

Section StrategyCreate.
Context {forms : Forms}.

(** X11.  [strategy_create] writes only on a POST whose form is valid, and then
    adds one strategy that belongs to the requesting user, whatever the
    form said about the owner; the strategy page of that user shows it
    afterwards together with the strategies shown before, and the strategy
    page of any other user is unchanged.  An invalid form or another method
    shows the form and writes nothing. *)
Theorem strategy_create_sets_owner (uid : nat) (m : string) (q : QueryDict) (db : Database) :
  let request := mkRequest (Authenticated uid) m q in
  let form := StrategyForm (Some (POST request)) in
  (m = "POST" ∧ is_valid form db = true
   ∧ ∃ s,
       strategy_create request db
         = (add_strategy s db, Ok (RedirectTo "strategy_list" None))
       ∧ strategy_user s = uid
       ∧ strategy_name s = strategy_name (strategy_instance form)
       ∧ ¬ In (strategy_id s) (map strategy_id (strategy_table db))
       ∧ (∀ m' q', ∃ before,
            strategy_list (mkRequest (Authenticated uid) m' q') db
              = (db, Ok (StrategyPage "journal/strategy_list.html" before))
            ∧ strategy_list (mkRequest (Authenticated uid) m' q') (add_strategy s db)
              = (add_strategy s db,
                 Ok (StrategyPage "journal/strategy_list.html" (before ++ [s]))))
       ∧ (∀ other m' q', other ≠ uid →
            snd (strategy_list (mkRequest (Authenticated other) m' q') (add_strategy s db))
            = snd (strategy_list (mkRequest (Authenticated other) m' q') db)))
  ∨ (m = "POST" ∧ is_valid form db = false
     ∧ strategy_create request db
       = (db, Ok (FormPage "journal/strategy_form.html" form "Create New Strategy")))
  ∨ (m ≠ "POST"
     ∧ strategy_create request db
       = (db, Ok (FormPage "journal/strategy_form.html"
                    (StrategyForm None) "Create New Strategy"))).
Proof.
  intros request form. subst request form. rewrite strategy_create_run.
  destruct (String.eqb_spec m "POST") as [->|Hm]; [|by right; right].
  cbn zeta.
  destruct (is_valid _ db) eqn:Hvalid; [left|by right; left].
  split; [done|]. split; [done|]. eexists. split; [reflexivity|].
  split; [done|]. split; [done|]. split; [apply next_key_fresh|].
  split.
  - intros m' q'. eexists. split; [apply strategy_list_run|].
    rewrite strategy_list_run. unfold add_strategy. cbn [strategy_table].
    rewrite List.filter_app. simpl. by rewrite Nat.eqb_refl.
  - intros other m' q' Hother. rewrite !strategy_list_run.
    unfold add_strategy. cbn [strategy_table snd].
    rewrite List.filter_app. simpl.
    destruct (Nat.eqb_spec uid other); [congruence|]. by rewrite app_nil_r.
Qed.

End StrategyCreate.

(** ** Uploading a chart *)

Section Upload.
Context {forms : Forms}.

(** X12.  [upload_trade_chart] checks, in this order: login (else the login
    page), the method (anything but POST gets 405, so the view's last
    return, the "Invalid request method" body, is never sent), ownership of
    the trade (else 404) and the form.  An invalid form gives the failure
    body with the form's errors and writes nothing.  A valid form adds one
    image, hung on the trade of the URL whatever trade the form named,
    under a new key, and the answer carries that key and the URL of the
    stored file; trades, strategies and portfolios are never touched. *)
Theorem upload_trade_chart_guards (pk : nat) (request : HttpRequest) (db : Database) :
  let form := TradeImageForm (POST request) (FILES request) in
  snd (upload_trade_chart pk request db)
    ≠ Ok (JsonResponse (JObj [("success", JBool false);
                              ("message", JStr "Invalid request method")]))
  ∧ match user request with
    | AnonymousUser => upload_trade_chart pk request db = (db, Ok LoginRedirect)
    | Authenticated uid =>
        (method request ≠ "POST"
         ∧ upload_trade_chart pk request db = (db, Ok (HttpResponseNotAllowed ["POST"])))
        ∨ (method request = "POST"
           ∧ (∀ t, In t (trade_table db) → trade_id t = pk → trade_user t ≠ uid)
           ∧ upload_trade_chart pk request db = (db, Raise Http404))
        ∨ (method request = "POST"
           ∧ (∃ t, In t (trade_table db) ∧ trade_id t = pk ∧ trade_user t = uid)
           ∧ is_valid form db = false
           ∧ upload_trade_chart pk request db
             = (db, Ok (JsonResponse (JObj [
                  ("success", JBool false);
                  ("message", JStr "Error uploading chart. Please try again.");
                  ("errors", form_errors form)]))))
        ∨ (method request = "POST"
           ∧ (∃ t, In t (trade_table db) ∧ trade_id t = pk ∧ trade_user t = uid)
           ∧ is_valid form db = true
           ∧ ∃ i,
               upload_trade_chart pk request db
                 = (add_image i db, Ok (JsonResponse (JObj [
                      ("success", JBool true);
                      ("message", JStr "Chart/Image uploaded successfully!");
                      ("image_id", JNum (image_id i));
                      ("image_url", JStr (storage_url (image_file i)))])))
               ∧ image_trade i = pk
               ∧ ¬ In (image_id i) (map image_id (image_table db))
               ∧ i = with_image_id (image_id i) (with_image_trade pk (image_instance form)))
    end.
Proof.
  intros form. subst form. destruct request as [[|uid] m q]; cbn [user method].
  { split; [|done]. simpl. discriminate. }
  rewrite upload_trade_chart_run.
  destruct (String.eqb_spec m "POST") as [->|Hm].
  2:{ split; [simpl; discriminate|by left]. }
  destruct (owned_trade pk uid db) as [t|] eqn:Hown.
  2:{ split; [simpl; discriminate|]. right. left.
      split; [done|]. split; [by apply owned_trade_None|done]. }
  apply owned_trade_Some in Hown. cbn zeta.
  destruct (is_valid _ db) eqn:Hvalid.
  - split; [simpl; discriminate|]. right. right. right.
    split; [done|]. split; [by exists t|]. split; [done|].
    eexists. split; [reflexivity|]. split; [done|].
    split; [apply next_key_fresh|done].
  - split; [simpl; intros [=]|]. right. right. left.
    split; [done|]. split; [by exists t|]. done.
Qed.

(** X13.  After a chart is uploaded for a trade, the image list of that trade
    holds the new image next to the images it held before. *)
Theorem upload_then_listed (pk uid : nat) (q : QueryDict) (db : Database) (t : Trade) :
  let request := mkRequest (Authenticated uid) "POST" q in
  In t (trade_table db) → trade_id t = pk → trade_user t = uid →
  is_valid (TradeImageForm (POST request) (FILES request)) db = true →
  ∃ i db',
    fst (upload_trade_chart pk request db) = db'
    ∧ trade_table db' = trade_table db
    ∧ image_trade i = pk
    ∧ caption i = caption (image_instance (TradeImageForm (POST request) (FILES request)))
    ∧ (∀ image_url strftime m' q', ∃ before after,
         trade_images image_url strftime pk (mkRequest (Authenticated uid) m' q') db
           = (db, Ok (JsonResponse (JObj [("images",
                        JList (map (image_data image_url strftime) before))])))
         ∧ trade_images image_url strftime pk (mkRequest (Authenticated uid) m' q') db'
           = (db', Ok (JsonResponse (JObj [("images",
                         JList (map (image_data image_url strftime) after))])))
         ∧ Permutation after (i :: before)).
Proof.
  intros request Hin Hid Hu Hvalid. subst request.
  rewrite upload_trade_chart_run. cbn [String.eqb Ascii.eqb Bool.eqb].
  destruct (owned_trade pk uid db) as [t'|] eqn:Hown.
  2:{ exfalso. by apply (owned_trade_None _ _ _ Hown t). }
  cbn zeta. rewrite Hvalid. cbn [fst].
  set (i := with_image_id _ _). exists i, (add_image i db).
  split; [done|]. split; [done|]. split; [done|]. split; [done|].
  intros image_url strftime m' q'.
  exists (sort_rows created_at_desc (images_of pk db)),
         (sort_rows created_at_desc (images_of pk (add_image i db))).
  rewrite !trade_images_run.
  assert (owned_trade pk uid (add_image i db) = owned_trade pk uid db) as -> by done.
  rewrite Hown. split; [done|]. split; [done|].
  rewrite !sort_rows_perm. unfold images_of, add_image. cbn [image_table].
  rewrite List.filter_app. simpl. rewrite Nat.eqb_refl.
  by rewrite Permutation_app_comm.
Qed.

End Upload.

Lemma upload_then_listed_witness :
  ∃ i db',
    fst (@upload_trade_chart example_forms 1
           (mkRequest (Authenticated 7) "POST" [("name", "exit.png")]) example_db) = db'
    ∧ trade_table db' = trade_table example_db
    ∧ image_trade i = 1%nat
    ∧ caption i = ""
    ∧ (∀ image_url strftime m' q', ∃ before after,
         trade_images image_url strftime 1 (mkRequest (Authenticated 7) m' q') example_db
           = (example_db, Ok (JsonResponse (JObj [("images",
                        JList (map (image_data image_url strftime) before))])))
         ∧ trade_images image_url strftime 1 (mkRequest (Authenticated 7) m' q') db'
           = (db', Ok (JsonResponse (JObj [("images",
                         JList (map (image_data image_url strftime) after))])))
         ∧ Permutation after (i :: before)).
Proof.
  apply (@upload_then_listed example_forms 1 7 [("name", "exit.png")] example_db
           (mkTrade 1 7 "MSFT" 20 CLOSED 150 2 (Some 100%Q))).
  - simpl. by left.
  - reflexivity.
  - reflexivity.
  - reflexivity.
Defined.

(** ** Updating a trade *)

Lemma replace_trade_keys t db :
  map trade_id (trade_table (replace_trade t db)) = map trade_id (trade_table db).
Proof.
  unfold replace_trade. cbn [trade_table]. rewrite map_map.
  apply map_ext. intros row. by destruct (Nat.eqb_spec (trade_id row) (trade_id t)).
Qed.

Lemma In_replace_trade t db r :
  In r (trade_table (replace_trade t db))
  ↔ (r = t ∧ ∃ old, In old (trade_table db) ∧ trade_id old = trade_id t)
    ∨ (In r (trade_table db) ∧ trade_id r ≠ trade_id t).
Proof.
  unfold replace_trade. cbn [trade_table]. rewrite in_map_iff. split.
  - intros (row & Hrow & Hin).
    destruct (Nat.eqb_spec (trade_id row) (trade_id t)) as [Heq|Hne].
    + left. split; [done|]. by exists row.
    + right. by subst r.
  - intros [[-> (old & Hin & Hid)]|[Hin Hne]].
    + exists old. split; [|done]. by rewrite Hid, Nat.eqb_refl.
    + exists r. split; [|done]. by destruct (Nat.eqb_spec (trade_id r) (trade_id t)).
Qed.

Lemma user_trades_replace_trade other t db :
  (∀ old, In old (trade_table db) → trade_id old = trade_id t → trade_user old ≠ other) →
  trade_user t ≠ other →
  user_trades other (replace_trade t db) = user_trades other db.
Proof.
  intros Hold Ht. unfold user_trades, replace_trade. cbn [trade_table].
  induction (trade_table db) as [|row rows IH]; [done|]. simpl.
  rewrite IH by (intros; apply Hold; auto; by right).
  destruct (Nat.eqb_spec (trade_id row) (trade_id t)) as [Heq|Hne]; [|done].
  assert (owned_by other t = false) as -> by (by apply Nat.eqb_neq).
  assert (owned_by other row = false) as ->; [|done].
  apply Nat.eqb_neq, Hold; [by left|done].
Qed.

Section TradeUpdate.
Context {forms : Forms}.

(** X14.  [trade_update] answers 404 and writes nothing unless the logged-in
    user owns a trade with the key.  For the owner, a method other than
    POST shows the form filled from the trade, a POST with an invalid form
    shows the bound form again, both without writing; a POST with a valid
    form saves the form's instance and redirects to the detail page of the
    same key. *)
Theorem trade_update_guards (pk : nat) (request : HttpRequest) (db : Database) :
  match user request with
  | AnonymousUser => trade_update pk request db = (db, Ok FormLoginRedirect)
  | Authenticated uid =>
      (trade_update pk request db = (db, Raise Http404)
       ∧ ∀ t, In t (trade_table db) → trade_id t = pk → trade_user t ≠ uid)
      ∨ ∃ t,
          In t (trade_table db) ∧ trade_id t = pk ∧ trade_user t = uid
          ∧ ((method request ≠ "POST"
              ∧ trade_update pk request db
                = (db, Ok (FormPage "journal/trade_form.html"
                             (TradeForm (user request) None (Some t)) "Update Trade")))
             ∨ (method request = "POST"
                ∧ is_valid (TradeForm (user request) (Some (POST request)) (Some t)) db
                  = false
                ∧ trade_update pk request db
                  = (db, Ok (FormPage "journal/trade_form.html"
                               (TradeForm (user request) (Some (POST request)) (Some t))
                               "Update Trade")))
             ∨ (method request = "POST"
                ∧ is_valid (TradeForm (user request) (Some (POST request)) (Some t)) db
                  = true
                ∧ trade_update pk request db
                  = (replace_trade
                       (trade_instance
                          (TradeForm (user request) (Some (POST request)) (Some t))) db,
                     Ok (RedirectTo "trade_detail" (Some pk)))))
  end.
Proof.
  destruct request as [[|uid] m q]; cbn [user method]; [done|].
  rewrite trade_update_run.
  destruct (owned_trade pk uid db) as [t|] eqn:Hown.
  2:{ left. split; [done|]. by apply owned_trade_None. }
  right. exists t. apply owned_trade_Some in Hown as (Hin & Hid & Hu).
  split; [done|]. split; [done|]. split; [done|].
  destruct (String.eqb_spec m "POST") as [->|Hm]; [|by left].
  right. cbn zeta. destruct (is_valid _ db) eqn:Hvalid; [by right|by left].
Qed.

(** X15.  When keys are unique and the form keeps the key of the trade it was
    given, a valid POST by the owner replaces that one row by the form's
    instance: every other trade stays as it was and where it was, the keys
    of the table are the same, and if the form also kept the owner, the
    detail page of the key shows the new row afterwards and the trades of
    every other user are unchanged. *)
Theorem trade_update_replaces_exactly
    (pk uid : nat) (q : QueryDict) (db : Database) (t : Trade) :
  let request := mkRequest (Authenticated uid) "POST" q in
  let form := TradeForm (Authenticated uid) (Some (POST request)) (Some t) in
  unique_keys db →
  In t (trade_table db) → trade_id t = pk → trade_user t = uid →
  is_valid form db = true →
  trade_id (trade_instance form) = pk →
  ∃ db',
    trade_update pk request db = (db', Ok (RedirectTo "trade_detail" (Some pk)))
    ∧ map trade_id (trade_table db') = map trade_id (trade_table db)
    ∧ (∀ r, In r (trade_table db')
            ↔ r = trade_instance form ∨ (In r (trade_table db) ∧ trade_id r ≠ pk))
    ∧ image_table db' = image_table db
    ∧ strategy_table db' = strategy_table db
    ∧ portfolio_table db' = portfolio_table db
    ∧ unique_keys db'
    ∧ (trade_user (trade_instance form) = uid →
         (∀ m' q', trade_detail pk (mkRequest (Authenticated uid) m' q') db'
                   = (db', Ok (Render "journal/trade_detail.html"
                                 (TradeCtx (trade_instance form)))))
         ∧ (∀ other, other ≠ uid → user_trades other db' = user_trades other db)).
Proof.
  intros request form Huniq Hin Hid Hu Hvalid Hkey. subst request.
  rewrite trade_update_run, (owned_trade_unique pk uid db t) by done.
  cbn [String.eqb Ascii.eqb Bool.eqb]. cbn zeta. fold form. rewrite Hvalid.
  exists (replace_trade (trade_instance form) db).
  split; [done|]. split; [apply replace_trade_keys|].
  assert (∀ r, In r (trade_table (replace_trade (trade_instance form) db))
               ↔ r = trade_instance form ∨ (In r (trade_table db) ∧ trade_id r ≠ pk))
    as Hrows.
  { intros r. rewrite In_replace_trade, Hkey. split.
    - intros [[-> _]|?]; [by left|by right].
    - intros [->|?]; [left|by right]. split; [done|]. by exists t. }
  split; [exact Hrows|]. split; [done|]. split; [done|]. split; [done|].
  assert (unique_keys (replace_trade (trade_instance form) db)) as Huniq'.
  { destruct Huniq as [Htr Him]. split; [|done]. by rewrite replace_trade_keys. }
  split; [exact Huniq'|]. intros Hu'. split.
  - intros m' q'. rewrite trade_detail_run.
    rewrite (owned_trade_unique pk uid _ (trade_instance form)); try done.
    apply Hrows. by left.
  - intros other Hother. apply user_trades_replace_trade; [|congruence].
    intros old Hold Hoid.
    assert (old = t) as ->
      by (destruct Huniq; apply (unique_key_eq trade_id old t (trade_table db)); congruence).
    congruence.
Qed.

End TradeUpdate.

Lemma trade_update_replaces_exactly_witness :
  ∃ db',
    @trade_update example_forms 1
        (mkRequest (Authenticated 7) "POST" [("name", "MSFT.US")]) example_db
      = (db', Ok (RedirectTo "trade_detail" (Some 1%nat)))
    ∧ map trade_id (trade_table db') = map trade_id (trade_table example_db)
    ∧ (∀ r, In r (trade_table db')
            ↔ r = mkTrade 1 7 "MSFT.US" 20 CLOSED 150 2 (Some 100%Q)
              ∨ (In r (trade_table example_db) ∧ trade_id r ≠ 1%nat))
    ∧ image_table db' = image_table example_db
    ∧ strategy_table db' = strategy_table example_db
    ∧ portfolio_table db' = portfolio_table example_db
    ∧ unique_keys db'
    ∧ (7%nat = 7%nat →
         (∀ m' q', trade_detail 1 (mkRequest (Authenticated 7) m' q') db'
                   = (db', Ok (Render "journal/trade_detail.html"
                                 (TradeCtx (mkTrade 1 7 "MSFT.US" 20 CLOSED 150 2
                                              (Some 100%Q))))))
         ∧ (∀ other, other ≠ 7%nat → user_trades other db' = user_trades other example_db)).
Proof.
  apply (@trade_update_replaces_exactly example_forms 1 7 [("name", "MSFT.US")]
           example_db (mkTrade 1 7 "MSFT" 20 CLOSED 150 2 (Some 100%Q))).
  - exact example_db_unique_keys.
  - simpl. by left.
  - reflexivity.
  - reflexivity.
  - reflexivity.
  - reflexivity.
Defined.

(** ** The other views on the small database *)

Example images_of_trade_1 :
  trade_images (String.append "/media/") (λ _ _, "Jan 01, 2024 09:30 AM") 1
    (mkRequest (Authenticated 7) "GET" []) example_db
  = (example_db,
     Ok (JsonResponse (JObj [("images", JList [
           JObj [("id", JNum 1); ("url", JStr "/media/chart.png");
                 ("caption", JStr "entry");
                 ("created_at", JStr "Jan 01, 2024 09:30 AM")]])]))).
Proof. reflexivity. Qed.

Example images_of_someone_else :
  trade_images (String.append "/media/") (λ _ _, "") 1
    (mkRequest (Authenticated 8) "GET" []) example_db
  = (example_db, Raise Http404).
Proof. reflexivity. Qed.

Example delete_image_with_get :
  delete_trade_image 1 1 (mkRequest (Authenticated 7) "GET" []) example_db
  = (example_db, Ok (HttpResponseNotAllowed ["DELETE"])).
Proof. reflexivity. Qed.

Example delete_image_of_someone_else :
  delete_trade_image 1 1 (mkRequest (Authenticated 8) "DELETE" []) example_db
  = (example_db, Raise Http404).
Proof. reflexivity. Qed.

Example delete_image_of_another_trade :
  delete_trade_image 3 1 (mkRequest (Authenticated 7) "DELETE" []) example_db
  = (example_db, Raise Http404).
Proof. reflexivity. Qed.

Example upload_without_file :
  @upload_trade_chart example_forms 1
    (mkRequest (Authenticated 7) "POST" [("caption", "exit")]) example_db
  = (example_db,
     Ok (JsonResponse (JObj [
       ("success", JBool false);
       ("message", JStr "Error uploading chart. Please try again.");
       ("errors", JObj [("name", JList [JStr "This field is required."])])]))).
Proof. reflexivity. Qed.

Example upload_gets_next_key :
  snd (@upload_trade_chart example_forms 1
         (mkRequest (Authenticated 7) "POST" [("name", "exit.png")]) example_db)
  = Ok (JsonResponse (JObj [
      ("success", JBool true);
      ("message", JStr "Chart/Image uploaded successfully!");
      ("image_id", JNum 2);
      ("image_url", JStr "/media/exit.png")])).
Proof. reflexivity. Qed.

Example update_of_someone_else :
  @trade_update example_forms 4
    (mkRequest (Authenticated 7) "POST" [("name", "IBM.US")]) example_db
  = (example_db, Raise Http404).
Proof. reflexivity. Qed.

Example create_then_count :
  length (trade_table (fst (@trade_create example_forms
            (mkRequest (Authenticated 8) "POST" [("name", "NVDA")]) example_db))) = 5%nat
  ∧ listed_ids (mkRequest (Authenticated 8) "GET" [])
      (fst (@trade_create example_forms
              (mkRequest (Authenticated 8) "POST" [("name", "NVDA")]) example_db))
    = Some [5; 4]%nat.
Proof. by vm_compute. Qed.
